(** * A shallow embedding of the autonomous social media agent

    The Python sources [agents/base_agent.py], [agents/trend_monitor.py],
    [agents/content_generator.py], [agents/engagement_tracker.py] and
    [orchestrator.py] are embedded as Rocq functions.

    Conventions of the embedding:
    - a Python object is a record; a method is a computation in the monad
      [M S] over the object's state [S], the world (wall clock and standard
      output) and Python exceptions;
    - [async]/[await] is sequential composition: no coroutine of the program
      ever suspends;
    - a dictionary with a fixed set of keys is a record, an optional key an
      [option] field; dictionaries with caller-chosen keys are [gmap]s;
    - a Python [float] is an exact rational [Q]: sums, quotients and [round]
      are computed without binary rounding error;
    - a Python [str] is a [string], one [ascii] per character;
    - the orchestrator reaches its agents through the [Agent] interface
      only, so its properties are stated for any three agents and hold in
      particular for the three the constructor creates.

    The definitions come first, one module per source class; the call
    sequences and sample inputs the statements need follow; then the lemmas
    and, last, one theorem per claim of the specification, by component. *)

From Stdlib Require Import ZArith QArith Qround Qreduction Qabs Lqa String Ascii List Lia.
From stdpp Require Import base option list gmap strings pretty.

Set Warnings "-register-all".

Local Open Scope string_scope.
Local Open Scope list_scope.
Local Open Scope Z_scope.

(** ** Python values *)

(** [int] and [float], the instances of [(int, float)]. *)
Inductive number : Type :=
  | Int (z : Z)
  | Float (q : Q).

(** The values a caller-supplied metrics mapping may hold. *)
Inductive pyval : Type :=
  | VNone
  | VNum (n : number)
  | VStr (s : string).

(** JSON documents, the argument of [json.dumps]. *)
Inductive json : Type :=
  | JNull
  | JNum (n : number)
  | JStr (s : string)
  | JList (l : list json)
  | JObj (fields : list (string * json)).

(** Instances of [Exception]: the class name and [str(e)]. *)
Record PyException : Type := mkException {
  exc_class : string;
  exc_msg : string
}.

Definition TypeError (msg : string) : PyException := mkException "TypeError" msg.
Definition IndexError (msg : string) : PyException := mkException "IndexError" msg.

(** [str(e)] *)
Definition str_exc (e : PyException) : string := exc_msg e.

Definition nl : string := String "010"%char EmptyString.
Definition dquote : string := String "034"%char EmptyString.

Definition Qof (n : number) : Q :=
  match n with
  | Int z => inject_Z z
  | Float q => q
  end.

Definition Qlt_bool (a b : Q) : bool := negb (Qle_bool b a).

(** [type(v).__name__] *)
Definition type_name (v : pyval) : string :=
  match v with
  | VNone => "NoneType"
  | VNum (Int _) => "int"
  | VNum (Float _) => "float"
  | VStr _ => "str"
  end.

(** Round half to even, to the nearest integer. *)
Definition round_half_even (q : Q) : Z :=
  let f := Qfloor q in
  match Qcompare (q - inject_Z f) (1 # 2) with
  | Lt => f
  | Gt => f + 1
  | Eq => if Z.even f then f else f + 1
  end.

Definition pow10 (ndigits : nat) : Z := 10 ^ Z.of_nat ndigits.

(** [round(q, ndigits)] on a float. *)
Definition round_dec (ndigits : nat) (q : Q) : Q :=
  Qred (inject_Z (round_half_even (q * inject_Z (pow10 ndigits)))
        / inject_Z (pow10 ndigits)).

(** [round(n, ndigits)] for [ndigits >= 0]: an [int] is returned as it is. *)
Definition py_round (n : number) (ndigits : nat) : number :=
  match n with
  | Int z => Int z
  | Float q => Float (round_dec ndigits q)
  end.

(** [a * b] on numbers. *)
Definition num_mul (a b : number) : number :=
  match a, b with
  | Int x, Int y => Int (x * y)
  | _, _ => Float (Qof a * Qof b)
  end.

(** [a / b] on numbers, for [b] non-zero: true division gives a float. *)
Definition num_div (a b : number) : number := Float (Qof a / Qof b).

(** [x or y] where [x] is an optional string: [None] and [""] are falsy. *)
Definition str_or (x y : option string) : option string :=
  match x with
  | Some s => if String.eqb s "" then y else Some s
  | None => y
  end.

(** [str(x)] inside an f-string, for an optional string. *)
Definition str_opt (x : option string) : string :=
  match x with
  | Some s => s
  | None => "None"
  end.

(** [l[start:]] *)
Definition slice_from {A : Type} (start : Z) (l : list A) : list A :=
  let n := Z.of_nat (length l) in
  let lo := if start <? 0 then Z.max 0 (start + n) else Z.min start n in
  drop (Z.to_nat lo) l.

(** [s[:n]] for [n >= 0] *)
Fixpoint string_take (n : nat) (s : string) : string :=
  match n, s with
  | O, _ => EmptyString
  | S _, EmptyString => EmptyString
  | S n', String c s' => String c (string_take n' s')
  end.

(** [s[:stop]] for any integer [stop]; a negative [stop] counts from the end. *)
Definition slice_to (stop : Z) (s : string) : string :=
  let n := Z.of_nat (String.length s) in
  let hi := if stop <? 0 then Z.max 0 (stop + n) else Z.min stop n in
  string_take (Z.to_nat hi) s.

(** ** The world and the monad of methods *)

Record World : Type := mkWorld {
  clock : nat -> string;   (* the successive readings of the wall clock *)
  ticks : nat;             (* how many readings were taken *)
  stdout : list string     (* the lines printed so far *)
}.

Inductive Res (A : Type) : Type :=
  | Ok (a : A)
  | Raise (e : PyException).
Arguments Ok {A} a.
Arguments Raise {A} e.

Definition M (St A : Type) : Type := World -> St -> Res A * St * World.

Definition ret {St A : Type} (a : A) : M St A := fun w s => (Ok a, s, w).

Definition bind {St A B : Type} (m : M St A) (k : A -> M St B) : M St B :=
  fun w s =>
    match m w s with
    | (Ok a, s', w') => k a w' s'
    | (Raise e, s', w') => (Raise e, s', w')
    end.

Definition raise {St A : Type} (e : PyException) : M St A := fun w s => (Raise e, s, w).

Definition get_self {St : Type} : M St St := fun w s => (Ok s, s, w).

Definition modify {St : Type} (f : St -> St) : M St unit := fun w s => (Ok tt, f s, w).

(** [try: body except Exception as e: handler e] *)
Definition try_except {St A : Type} (body : M St A) (handler : PyException -> M St A) : M St A :=
  fun w s =>
    match body w s with
    | (Ok a, s', w') => (Ok a, s', w')
    | (Raise e, s', w') => handler e w' s'
    end.

(** A method of a component object run from the object that holds it. *)
Definition zoom {St T A : Type} (proj : St -> T) (upd : T -> St -> St) (m : M T A) : M St A :=
  fun w s =>
    match m w (proj s) with
    | (r, t', w') => (r, upd t' s, w')
    end.

(** [datetime.now().isoformat()] *)
Definition now_isoformat {St : Type} : M St string :=
  fun w s => (Ok (clock w (ticks w)), s, mkWorld (clock w) (S (ticks w)) (stdout w)).

(** [print(line)] *)
Definition print {St : Type} (line : string) : M St unit :=
  fun w s => (Ok tt, s, mkWorld (clock w) (ticks w) (stdout w ++ [line])).

(** A pure step that may raise. *)
Definition lift_res {St A : Type} (r : Res A) : M St A :=
  match r with
  | Ok a => ret a
  | Raise e => raise e
  end.

(** [await asyncio.sleep(seconds)]: the coroutine is suspended and resumed;
    the time that passes only shows in the later readings of the clock,
    which the world leaves arbitrary. *)
Definition asyncio_sleep {St : Type} (seconds : Z) : M St unit :=
  fun w s => (Ok tt, s, w).

Declare Scope py_scope.
Delimit Scope py_scope with py.
Notation "'run' x '<~' c ';;' k" := (bind c (fun x => k))
  (at level 10, x name, c at level 99, k at level 200) : py_scope.
Notation "'exec' c ';;' k" := (bind c (fun _ => k))
  (at level 10, c at level 99, k at level 200) : py_scope.
Local Open Scope py_scope.

(** ** agents/base_agent.py *)

Module BaseAgent.

Record MemoryEntry : Type := mkEntry {
  timestamp : string;
  role : string;
  content : json + string;   (* [inl j] stands for the text [json.dumps(j)] *)
  metadata : gmap string pyval
}.

Record t : Type := mk {
  name : string;
  description : string;
  config : gmap string pyval;
  memory : list MemoryEntry;
  created_at : string
}.

Definition set_memory (m : list MemoryEntry) (a : t) : t :=
  mk (name a) (description a) (config a) m (created_at a).

(** [__init__] *)
Definition init (name description : string) (config : option (gmap string pyval))
    (w : World) : t * World :=
  (mk name description (default ∅ config) [] (clock w (ticks w)),
   mkWorld (clock w) (S (ticks w)) (stdout w)).

Definition add_to_memory (role : string) (content : json + string)
    (metadata : option (gmap string pyval)) : M t unit :=
  run ts <~ now_isoformat ;;
  let memory_entry := mkEntry ts role content (default ∅ metadata) in
  modify (fun a => set_memory (memory a ++ [memory_entry]) a).

Definition get_memory (limit : option Z) (a : t) : list MemoryEntry :=
  match limit with
  | Some n => if n =? 0 then memory a else slice_from (- n) (memory a)
  | None => memory a
  end.

Definition clear_memory : M t unit := modify (set_memory []).

(** The dictionary [get_state] returns. *)
Record AgentState : Type := mkAgentState {
  state_name : string;
  state_description : string;
  state_created_at : string;
  memory_size : nat;
  state_config : gmap string pyval
}.

Definition get_state (a : t) : AgentState :=
  mkAgentState (name a) (description a) (created_at a) (length (memory a)) (config a).

End BaseAgent.

(** The agent interface: [execute] is the abstract method every agent
    overrides; the orchestrator only ever calls an agent through it. *)
Class Agent (A I O : Type) : Type := {
  agent_execute : I -> M A O
}.

(** ** agents/trend_monitor.py *)

Module TrendMonitorAgent.

Record Trend : Type := mkTrend {
  rank : Z;
  topic : string;
  volume : Z;
  sentiment : string;
  momentum : string
}.

Record Analysis : Type := mkAnalysis {
  total_trends : Z;
  positive_sentiment : number;
  rising_momentum : number;
  avg_volume : number;
  engagement_potential : string
}.

Record Input : Type := mkInput {
  query : option string;
  time_range : option string
}.

Record Result : Type := mkResult {
  status : string;
  result_platform : string;
  trends : list Trend;
  analysis : Analysis;
  insights : list string;
  timestamp : string
}.

Record t : Type := mk {
  base : BaseAgent.t;
  platform : string;
  trends_cache : list Trend;
  analysis_interval : Z;          (* [timedelta(hours=1)], in seconds *)
  last_analysis : option string
}.

Definition set_base (b : BaseAgent.t) (a : t) : t :=
  mk b (platform a) (trends_cache a) (analysis_interval a) (last_analysis a).

Definition set_trends_cache (c : list Trend) (a : t) : t :=
  mk (base a) (platform a) c (analysis_interval a) (last_analysis a).

Definition add_to_memory (role : string) (content : json + string)
    (metadata : option (gmap string pyval)) : M t unit :=
  zoom base set_base (BaseAgent.add_to_memory role content metadata).

(** [__init__] *)
Definition init (platform : string) (config : option (gmap string pyval))
    (w : World) : t * World :=
  match BaseAgent.init "TrendMonitor"
          ("Monitors and analyzes trends on " +:+ platform)
          (Some (default ∅ config)) w with
  | (b, w') => (mk b platform [] 3600 None, w')
  end.

Definition _collect_trends (query time_range : string) : M t (list Trend) :=
  let trends :=
    [ mkTrend 1 "#AIRevolution" 125000 "positive" "rising";
      mkTrend 2 "#GenerativeAI" 98000 "mixed" "stable";
      mkTrend 3 "#TechInnovation" 87000 "positive" "rising" ] in
  exec modify (set_trends_cache trends) ;;
  ret trends.

(** [sum(1 for t in trends if p t)] *)
Definition count_if (p : Trend -> bool) (trends : list Trend) : Z :=
  Z.of_nat (length (filter (fun t => p t = true) trends)).

(** [sum(t.get("volume", 0) for t in trends)] *)
Definition sum_volume (trends : list Trend) : Z :=
  foldr (fun t acc => volume t + acc) 0 trends.

Definition _analyze_trends (trends : list Trend) : Analysis :=
  let positive_count := count_if (fun t => String.eqb (sentiment t) "positive") trends in
  let rising_count := count_if (fun t => String.eqb (momentum t) "rising") trends in
  let len := Z.of_nat (length trends) in
  let nonempty := negb (len =? 0) in
  mkAnalysis
    len
    (if nonempty then num_div (Int positive_count) (Int len) else Int 0)
    (if nonempty then num_div (Int rising_count) (Int len) else Int 0)
    (if nonempty then num_div (Int (sum_volume trends)) (Int len) else Int 0)
    (if Qlt_bool (inject_Z len * (1 # 2)) (inject_Z rising_count)
     then "high" else "medium").

Definition _generate_insights (analysis : Analysis) : list string :=
  let insights := [] in
  let insights :=
    if Qlt_bool (6 # 10) (Qof (positive_sentiment analysis))
    then insights ++ ["Strong positive sentiment detected - optimal for brand promotion"]
    else insights in
  let insights :=
    if Qlt_bool (1 # 2) (Qof (rising_momentum analysis))
    then insights ++ ["Multiple rising trends identified - recommend content alignment"]
    else insights in
  let insights :=
    if Qlt_bool (inject_Z 90000) (Qof (avg_volume analysis))
    then insights ++ ["High engagement volume detected - prioritize relevant content"]
    else insights in
  match insights with
  | [] => ["Monitor trends closely for emerging opportunities"]
  | _ => insights
  end.

Definition json_of_trend (t : Trend) : json :=
  JObj [ ("rank", JNum (Int (rank t))); ("topic", JStr (topic t));
         ("volume", JNum (Int (volume t))); ("sentiment", JStr (sentiment t));
         ("momentum", JStr (momentum t)) ].

Definition json_of_analysis (a : Analysis) : json :=
  JObj [ ("total_trends", JNum (Int (total_trends a)));
         ("positive_sentiment", JNum (positive_sentiment a));
         ("rising_momentum", JNum (rising_momentum a));
         ("avg_volume", JNum (avg_volume a));
         ("engagement_potential", JStr (engagement_potential a)) ].

Definition json_of_result (r : Result) : json :=
  JObj [ ("status", JStr (status r)); ("platform", JStr (result_platform r));
         ("trends", JList (map json_of_trend (trends r)));
         ("analysis", json_of_analysis (analysis r));
         ("insights", JList (map JStr (insights r)));
         ("timestamp", JStr (timestamp r)) ].

Definition execute (input_data : Input) : M t Result :=
  let query := default "" (query input_data) in
  let time_range := default "24h" (time_range input_data) in
  run trends <~ _collect_trends query time_range ;;
  let analysis := _analyze_trends trends in
  let insights := _generate_insights analysis in
  run self <~ get_self ;;
  run ts <~ now_isoformat ;;
  let result := mkResult "success" (platform self) trends analysis insights ts in
  exec add_to_memory "assistant" (inl (json_of_result result)) None ;;
  ret result.

Definition process (message : string) : M t string :=
  exec add_to_memory "user" (inr message) None ;;
  run result <~ execute (mkInput (Some message) None) ;;
  let response :=
    "Trend Analysis for '" +:+ message +:+ "': " +:+ pretty (length (trends result))
    +:+ " trends identified" in
  ret response.

Definition get_cached_trends (a : t) : list Trend := trends_cache a.

End TrendMonitorAgent.

#[export] Instance trend_monitor_agent :
  Agent TrendMonitorAgent.t TrendMonitorAgent.Input TrendMonitorAgent.Result :=
  {| agent_execute := TrendMonitorAgent.execute |}.

(** ** agents/content_generator.py *)

Module ContentGeneratorAgent.

Record Input : Type := mkInput {
  topic : option string;
  tone : option string;
  style : option string;
  hashtags : option (list string)
}.

Record Result : Type := mkResult {
  status : string;
  result_platform : string;
  content : string;
  result_topic : string;
  result_tone : option string;
  result_style : option string;
  length : nat;
  timestamp : string
}.

Record t : Type := mk {
  base : BaseAgent.t;
  platform : string;
  brand_voice : gmap string string;
  content_templates : gmap string string
}.

Definition set_base (b : BaseAgent.t) (a : t) : t :=
  mk b (platform a) (brand_voice a) (content_templates a).

Definition add_to_memory (role : string) (content : json + string)
    (metadata : option (gmap string pyval)) : M t unit :=
  zoom base set_base (BaseAgent.add_to_memory role content metadata).

Definition _initialize_templates : gmap string string :=
  <["conversational" := "Let's talk about this..."]>
  (<["educational" := "Did you know?"]>
  (<["inspirational" := "Here's something that caught our attention..."]>
  (<["promotional" := "Check out what we've been working on..."]>
  (<["news" := "Breaking: Latest updates"]> ∅)))).

Definition default_brand_voice : gmap string string :=
  <["tone" := "professional"]>
  (<["style" := "conversational"]>
  (<["values" := "innovation, transparency, excellence"]> ∅)).

(** [__init__]; an absent or empty [brand_voice] is replaced by the default. *)
Definition init (platform : string) (brand_voice : option (gmap string string))
    (config : option (gmap string pyval)) (w : World) : t * World :=
  match BaseAgent.init "ContentGenerator"
          ("Generates brand-consistent content for " +:+ platform)
          (Some (default ∅ config)) w with
  | (b, w') =>
      let voice :=
        match brand_voice with
        | Some bv => if decide (bv = ∅) then default_brand_voice else bv
        | None => default_brand_voice
        end in
      (mk b platform voice _initialize_templates, w')
  end.

Definition _generate_content (self : t) (topic : string) (tone style : option string)
    : string :=
  let template :=
    match style with
    | Some st => default "" (content_templates self !! st)
    | None => ""
    end in
  template +:+ nl +:+ nl +:+
  "Topic: " +:+ topic +:+ nl +:+
  "Tone: " +:+ str_opt tone +:+ nl +:+
  "Brand Voice: " +:+ str_opt (brand_voice self !! "tone") +:+ nl +:+ nl +:+
  "Generated content for social media engagement.".

Definition _optimize_for_platform (self : t) (content : string) : string :=
  if String.eqb (platform self) "twitter" then string_take 280 content
  else if String.eqb (platform self) "tiktok" then "Hook: " +:+ content
  else if String.eqb (platform self) "instagram" then
    "[Visual: infographic]" +:+ nl +:+ content
  else content.

Definition json_of_opt (x : option string) : json :=
  match x with
  | Some s => JStr s
  | None => JNull
  end.

Definition json_of_result (r : Result) : json :=
  JObj [ ("status", JStr (status r)); ("platform", JStr (result_platform r));
         ("content", JStr (content r)); ("topic", JStr (result_topic r));
         ("tone", json_of_opt (result_tone r)); ("style", json_of_opt (result_style r));
         ("length", JNum (Int (Z.of_nat (length r))));
         ("timestamp", JStr (timestamp r)) ].

Definition execute (input_data : Input) : M t Result :=
  run self <~ get_self ;;
  let topic := default "" (topic input_data) in
  let tone := str_or (tone input_data) (brand_voice self !! "tone") in
  let style := str_or (style input_data) (brand_voice self !! "style") in
  let hashtags := default [] (hashtags input_data) in
  let content := _generate_content self topic tone style in
  let optimized := _optimize_for_platform self content in
  let with_hashtags :=
    match hashtags with
    | [] => optimized
    | _ => optimized +:+ nl +:+ nl +:+ String.concat " " hashtags
    end in
  run ts <~ now_isoformat ;;
  let result :=
    mkResult "success" (platform self) with_hashtags topic tone style
             (String.length with_hashtags) ts in
  exec add_to_memory "assistant" (inl (json_of_result result)) None ;;
  ret result.

Definition process (message : string) : M t string :=
  exec add_to_memory "user" (inr message) None ;;
  run result <~ execute (mkInput (Some message) None None None) ;;
  ret (content result).

(** The loop of [generate_carousel]: one piece appended per topic. *)
Definition generate_carousel (topics : list string) (style : string) : M t (list string) :=
  run self <~ get_self ;;
  ret (foldl (fun carousel_content topic =>
                carousel_content ++
                [_generate_content self topic (brand_voice self !! "tone") (Some style)])
         [] topics).

End ContentGeneratorAgent.

#[export] Instance content_generator_agent :
  Agent ContentGeneratorAgent.t ContentGeneratorAgent.Input ContentGeneratorAgent.Result :=
  {| agent_execute := ContentGeneratorAgent.execute |}.

(** ** Arithmetic on caller-supplied values *)

Definition num_add (a b : number) : number :=
  match a, b with
  | Int x, Int y => Int (x + y)
  | _, _ => Float (Qof a + Qof b)
  end.

(** [a + b] *)
Definition py_add (a b : pyval) : Res pyval :=
  match a, b with
  | VNum x, VNum y => Ok (VNum (num_add x y))
  | VStr s, VStr u => Ok (VStr (s +:+ u))
  | VStr _, _ =>
      Raise (TypeError ("can only concatenate str (not " +:+ dquote +:+ type_name b
                        +:+ dquote +:+ ") to str"))
  | _, _ =>
      Raise (TypeError ("unsupported operand type(s) for +: '" +:+ type_name a
                        +:+ "' and '" +:+ type_name b +:+ "'"))
  end.

(** [a > 0] *)
Definition py_gt0 (a : pyval) : Res bool :=
  match a with
  | VNum n => Ok (Qlt_bool 0 (Qof n))
  | _ =>
      Raise (TypeError ("'>' not supported between instances of '" +:+ type_name a
                        +:+ "' and 'int'"))
  end.

(** [a / b]; the program only divides by a value it has tested to be
    positive, so the zero-divisor case is never reached. *)
Definition py_truediv (a b : pyval) : Res number :=
  match a, b with
  | VNum x, VNum y =>
      if Qeq_bool (Qof y) 0
      then Raise (mkException "ZeroDivisionError" "division by zero")
      else Ok (num_div x y)
  | _, _ =>
      Raise (TypeError ("unsupported operand type(s) for /: '" +:+ type_name a
                        +:+ "' and '" +:+ type_name b +:+ "'"))
  end.

Definition res_bind {A B : Type} (r : Res A) (k : A -> Res B) : Res B :=
  match r with
  | Ok a => k a
  | Raise e => Raise e
  end.

Definition json_of_pyval (v : pyval) : json :=
  match v with
  | VNone => JNull
  | VNum n => JNum n
  | VStr s => JStr s
  end.

(** ** agents/engagement_tracker.py *)

Module EngagementTrackerAgent.

Record Input : Type := mkInput {
  metrics_data : option (gmap string pyval);
  time_period : option string
}.

Record Processed : Type := mkProcessed {
  likes : pyval;
  comments : pyval;
  shares : pyval;
  impressions : pyval;
  total_interactions : pyval;
  engagement_rate : number;
  engagement_rate_percent : number
}.

Record Breakdown : Type := mkBreakdown {
  likes_percent : number;
  comments_percent : number;
  shares_percent : number
}.

Record Analysis : Type := mkAnalysis {
  status : string;
  analysis_engagement_rate : number;
  engagement_breakdown : Breakdown;
  reach : pyval
}.

Record Result : Type := mkResult {
  result_status : string;
  result_platform : string;
  metrics : Processed;
  analysis : Analysis;
  recommendations : list string;
  timestamp : string
}.

Record t : Type := mk {
  base : BaseAgent.t;
  platform : string;
  metrics_history : list Result;
  performance_threshold : Q;
  aggregated_metrics : gmap string Q   (* [defaultdict(float)] *)
}.

Definition set_base (b : BaseAgent.t) (a : t) : t :=
  mk b (platform a) (metrics_history a) (performance_threshold a) (aggregated_metrics a).

Definition set_metrics_history (h : list Result) (a : t) : t :=
  mk (base a) (platform a) h (performance_threshold a) (aggregated_metrics a).

Definition set_aggregated_metrics (m : gmap string Q) (a : t) : t :=
  mk (base a) (platform a) (metrics_history a) (performance_threshold a) m.

Definition add_to_memory (role : string) (content : json + string)
    (metadata : option (gmap string pyval)) : M t unit :=
  zoom base set_base (BaseAgent.add_to_memory role content metadata).

(** [__init__] *)
Definition init (platform : string) (config : option (gmap string pyval))
    (w : World) : t * World :=
  match BaseAgent.init "EngagementTracker"
          ("Tracks engagement metrics on " +:+ platform)
          (Some (default ∅ config)) w with
  | (b, w') => (mk b platform [] (6 # 10) ∅, w')
  end.

(** [processed.items()], in insertion order. *)
Definition items (p : Processed) : list (string * pyval) :=
  [ ("likes", likes p); ("comments", comments p); ("shares", shares p);
    ("impressions", impressions p); ("total_interactions", total_interactions p);
    ("engagement_rate", VNum (engagement_rate p));
    ("engagement_rate_percent", VNum (engagement_rate_percent p)) ].

(** [agg[key]] on the [defaultdict(float)]: a missing key reads as [0.0]. *)
Definition agg_get (agg : gmap string Q) (key : string) : Q :=
  default 0%Q (agg !! key).

(** One turn of the loop: [if isinstance(value, (int, float)): agg[key] += value]. *)
Definition aggregate_item (agg : gmap string Q) (kv : string * pyval) : gmap string Q :=
  match snd kv with
  | VNum n => <[fst kv := (agg_get agg (fst kv) + Qof n)%Q]> agg
  | _ => agg
  end.

(** The dictionary [processed] that [_process_metrics] builds from the raw
    metrics, before it touches the running totals. *)
Definition build_processed (metrics_data : gmap string pyval) : Res Processed :=
  let likes := default (VNum (Int 0)) (metrics_data !! "likes") in
  let comments := default (VNum (Int 0)) (metrics_data !! "comments") in
  let shares := default (VNum (Int 0)) (metrics_data !! "shares") in
  let impressions := default (VNum (Int 1)) (metrics_data !! "impressions") in
  res_bind (py_add likes comments) (fun lc =>
  res_bind (py_add lc shares) (fun total_interactions =>
  res_bind (py_gt0 impressions) (fun positive =>
  res_bind (if positive : bool then py_truediv total_interactions impressions
            else Ok (Int 0)) (fun engagement_rate =>
  Ok (mkProcessed likes comments shares impressions total_interactions
        (py_round engagement_rate 4)
        (py_round (num_mul engagement_rate (Int 100)) 2)))))).

Definition _process_metrics (metrics_data : gmap string pyval) : M t Processed :=
  run processed <~ lift_res (build_processed metrics_data) ;;
  exec modify (fun a =>
    set_aggregated_metrics (foldl aggregate_item (aggregated_metrics a) (items processed)) a) ;;
  ret processed.

(** The threshold ladder of [_analyze_performance]. *)
Definition performance_status (engagement_rate : Q) : string :=
  if Qle_bool (8 # 100) engagement_rate then "excellent"
  else if Qle_bool (5 # 100) engagement_rate then "good"
  else if Qle_bool (3 # 100) engagement_rate then "average"
  else "needs_improvement".

(** [round((x / total * 100) if total > 0 else 0, 2)] *)
Definition percent_of (x total : pyval) : Res number :=
  res_bind (py_gt0 total) (fun positive =>
    if positive : bool
    then res_bind (py_truediv x total) (fun d => Ok (py_round (num_mul d (Int 100)) 2))
    else Ok (py_round (Int 0) 2)).

Definition _analyze_performance (processed_metrics : Processed) : Res Analysis :=
  let engagement_rate := engagement_rate processed_metrics in
  let status := performance_status (Qof engagement_rate) in
  let total := total_interactions processed_metrics in
  res_bind (percent_of (likes processed_metrics) total) (fun lp =>
  res_bind (percent_of (comments processed_metrics) total) (fun cp =>
  res_bind (percent_of (shares processed_metrics) total) (fun sp =>
  Ok (mkAnalysis status engagement_rate (mkBreakdown lp cp sp)
        (impressions processed_metrics))))).

Definition _generate_recommendations (analysis : Analysis) : list string :=
  let status := status analysis in
  let recommendations :=
    if String.eqb status "excellent"
    then ["Excellent engagement! Continue current strategy."]
    else if String.eqb status "good"
    then ["Good performance. Consider A/B testing new content formats."]
    else if String.eqb status "average"
    then ["Average engagement. Try increasing content frequency."]
    else ["Low engagement. Review content quality and posting times."] in
  let recommendations :=
    if Qlt_bool (Qof (comments_percent (engagement_breakdown analysis))) (inject_Z 20)
    then recommendations ++ ["Consider adding more discussion-prompting questions."]
    else recommendations in
  let recommendations :=
    if Qlt_bool (Qof (shares_percent (engagement_breakdown analysis))) (inject_Z 10)
    then recommendations ++ ["Encourage sharing with clear CTAs and valuable content."]
    else recommendations in
  recommendations.

Definition json_of_processed (p : Processed) : json :=
  JObj (map (fun kv => (fst kv, json_of_pyval (snd kv))) (items p)).

Definition json_of_analysis (a : Analysis) : json :=
  JObj [ ("status", JStr (status a));
         ("engagement_rate", JNum (analysis_engagement_rate a));
         ("engagement_breakdown",
            JObj [ ("likes_percent", JNum (likes_percent (engagement_breakdown a)));
                   ("comments_percent", JNum (comments_percent (engagement_breakdown a)));
                   ("shares_percent", JNum (shares_percent (engagement_breakdown a))) ]);
         ("reach", json_of_pyval (reach a)) ].

Definition json_of_result (r : Result) : json :=
  JObj [ ("status", JStr (result_status r)); ("platform", JStr (result_platform r));
         ("metrics", json_of_processed (metrics r));
         ("analysis", json_of_analysis (analysis r));
         ("recommendations", JList (map JStr (recommendations r)));
         ("timestamp", JStr (timestamp r)) ].

Definition execute (input_data : Input) : M t Result :=
  let metrics_data := default ∅ (metrics_data input_data) in
  let time_period := default "7d" (time_period input_data) in
  run processed_metrics <~ _process_metrics metrics_data ;;
  run analysis <~ lift_res (_analyze_performance processed_metrics) ;;
  let recommendations := _generate_recommendations analysis in
  run self <~ get_self ;;
  run ts <~ now_isoformat ;;
  let result :=
    mkResult "success" (platform self) processed_metrics analysis recommendations ts in
  exec modify (fun a => set_metrics_history (metrics_history a ++ [result]) a) ;;
  exec add_to_memory "assistant" (inl (json_of_result result)) None ;;
  ret result.

Definition process (message : string) : M t string :=
  exec add_to_memory "user" (inr message) None ;;
  let sample_metrics : gmap string pyval :=
    <["likes" := VNum (Int 450)]>
    (<["comments" := VNum (Int 120)]>
    (<["shares" := VNum (Int 85)]>
    (<["impressions" := VNum (Int 12500)]>
    (<["engagement_rate" := VNum (Float (52 # 1000))]> ∅)))) in
  run result <~ execute (mkInput (Some sample_metrics) None) ;;
  let response :=
    "Engagement Analysis Complete: " +:+ status (analysis result) +:+ " performance" in
  ret response.


End EngagementTrackerAgent.

#[export] Instance engagement_tracker_agent :
  Agent EngagementTrackerAgent.t EngagementTrackerAgent.Input EngagementTrackerAgent.Result :=
  {| agent_execute := EngagementTrackerAgent.execute |}.

(** ** orchestrator.py *)

Module AgentOrchestrator.

Record Config : Type := mkConfig {
  platform : option string;
  brand_voice : option (gmap string string)
}.

(** [self.state] *)
Record State : Type := mkState {
  trends : list TrendMonitorAgent.Trend;
  generated_content : list ContentGeneratorAgent.Result;
  engagement_metrics : option EngagementTrackerAgent.Analysis   (* [None] is [{}] *)
}.

(** [input_params]; every key is optional. *)
Record Input : Type := mkInput {
  query : option string;
  topic : option string;
  tone : option string;
  hashtags : option (list string);
  metrics : option (gmap string pyval)
}.

(** The dictionary returned by [execute_workflow]; the success and the error
    dictionaries differ in the keys they hold. *)
Record WorkflowResult : Type := mkWorkflowResult {
  workflow_id : string;
  status : string;
  error : option string;
  timestamp : string;
  result_trends : option (list TrendMonitorAgent.Trend);
  content : option string;
  engagement_analysis : option (option EngagementTrackerAgent.Analysis);
  recommendations : option (list string)
}.

(** [self.agents], with the three keys [_initialize_agents] creates. *)
Record Agents (T C E : Type) : Type := mkAgents {
  trend_monitor : T;
  content_generator : C;
  engagement_tracker : E
}.
Arguments mkAgents {T C E} _ _ _.
Arguments trend_monitor {T C E} _.
Arguments content_generator {T C E} _.
Arguments engagement_tracker {T C E} _.

Record t (T C E : Type) : Type := mk {
  config : Config;
  agents : Agents T C E;
  execution_history : list WorkflowResult;
  state : State
}.
Arguments mk {T C E} _ _ _ _.
Arguments config {T C E} _.
Arguments agents {T C E} _.
Arguments execution_history {T C E} _.
Arguments state {T C E} _.

Definition empty_state : State := mkState [] [] None.

(** [trend_result.get("trends", [{}])[0].get("topic", "")] *)
Definition first_trend_topic (trends : list TrendMonitorAgent.Trend) : Res string :=
  match trends with
  | [] => Raise (IndexError "list index out of range")
  | tr :: _ => Ok (TrendMonitorAgent.topic tr)
  end.

(** [input_params.get("topic") or (<first trend's topic>)] *)
Definition resolve_topic (explicit : option string)
    (trends : list TrendMonitorAgent.Trend) : Res string :=
  match explicit with
  | Some s => if String.eqb s "" then first_trend_topic trends else Ok s
  | None => first_trend_topic trends
  end.

(** [{"query": input_params.get("query", "")}] *)
Definition trend_input (input_params : Input) : TrendMonitorAgent.Input :=
  TrendMonitorAgent.mkInput (Some (default "" (query input_params))) None.

(** [{"topic": topic, "tone": input_params.get("tone"),
      "hashtags": input_params.get("hashtags", [])}] *)
Definition content_input (input_params : Input) (topic : string)
    : ContentGeneratorAgent.Input :=
  ContentGeneratorAgent.mkInput (Some topic) (tone input_params) None
    (Some (default [] (hashtags input_params))).

(** [{"metrics_data": input_params.get("metrics", {})}] *)
Definition engagement_input (input_params : Input) : EngagementTrackerAgent.Input :=
  EngagementTrackerAgent.mkInput (Some (default ∅ (metrics input_params))) None.

Record CurrentState : Type := mkCurrentState {
  current_state : State;
  agents_initialized : list string;
  execution_count : nat;
  last_execution : option WorkflowResult
}.

Section Workflow.

Context {T C E : Type}.
Context `{!Agent T TrendMonitorAgent.Input TrendMonitorAgent.Result}.
Context `{!Agent C ContentGeneratorAgent.Input ContentGeneratorAgent.Result}.
Context `{!Agent E EngagementTrackerAgent.Input EngagementTrackerAgent.Result}.

Definition set_agents (a : Agents T C E) (o : t T C E) : t T C E :=
  mk (config o) a (execution_history o) (state o).

Definition set_execution_history (h : list WorkflowResult) (o : t T C E) : t T C E :=
  mk (config o) (agents o) h (state o).

Definition set_state (s : State) (o : t T C E) : t T C E :=
  mk (config o) (agents o) (execution_history o) s.

Definition set_trend_monitor (a : T) (o : t T C E) : t T C E :=
  set_agents (mkAgents a (content_generator (agents o)) (engagement_tracker (agents o))) o.

Definition set_content_generator (a : C) (o : t T C E) : t T C E :=
  set_agents (mkAgents (trend_monitor (agents o)) a (engagement_tracker (agents o))) o.

Definition set_engagement_tracker (a : E) (o : t T C E) : t T C E :=
  set_agents (mkAgents (trend_monitor (agents o)) (content_generator (agents o)) a) o.

(** The body of the [try] block of [execute_workflow]. *)
Definition workflow_steps (workflow_id : string) (input_params : Input)
    : M (t T C E) WorkflowResult :=
  exec print "[Step 1] Monitoring trends..." ;;
  run trend_result <~
    zoom (fun o => trend_monitor (agents o)) set_trend_monitor
      (agent_execute (trend_input input_params)) ;;
  exec modify (fun o =>
    set_state (mkState (TrendMonitorAgent.trends trend_result)
                 (generated_content (state o)) (engagement_metrics (state o))) o) ;;
  exec print "[Step 2] Generating content..." ;;
  run topic <~
    lift_res (resolve_topic (topic input_params) (TrendMonitorAgent.trends trend_result)) ;;
  run content_result <~
    zoom (fun o => content_generator (agents o)) set_content_generator
      (agent_execute (content_input input_params topic)) ;;
  exec modify (fun o =>
    set_state (mkState (trends (state o))
                 (generated_content (state o) ++ [content_result])
                 (engagement_metrics (state o))) o) ;;
  exec print "[Step 3] Tracking engagement..." ;;
  run engagement_result <~
    zoom (fun o => engagement_tracker (agents o)) set_engagement_tracker
      (agent_execute (engagement_input input_params)) ;;
  exec modify (fun o =>
    set_state (mkState (trends (state o)) (generated_content (state o))
                 (Some (EngagementTrackerAgent.analysis engagement_result))) o) ;;
  run ts <~ now_isoformat ;;
  run self <~ get_self ;;
  let result :=
    mkWorkflowResult workflow_id "success" None ts
      (Some (trends (state self)))
      (Some (ContentGeneratorAgent.content content_result))
      (Some (engagement_metrics (state self)))
      (Some (EngagementTrackerAgent.recommendations engagement_result)) in
  exec modify (fun o => set_execution_history (execution_history o ++ [result]) o) ;;
  ret result.

(** The [except Exception as e] handler of [execute_workflow]. *)
Definition workflow_error (workflow_id : string) (e : PyException)
    : M (t T C E) WorkflowResult :=
  run ts <~ now_isoformat ;;
  ret (mkWorkflowResult workflow_id "error" (Some (str_exc e)) ts None None None None).

Definition execute_workflow (input_params : Input) : M (t T C E) WorkflowResult :=
  run workflow_id <~ now_isoformat ;;
  try_except (workflow_steps workflow_id input_params) (workflow_error workflow_id).

Definition get_execution_history (limit : option Z) (o : t T C E) : list WorkflowResult :=
  match limit with
  | Some n => if n =? 0 then execution_history o else slice_from (- n) (execution_history o)
  | None => execution_history o
  end.

Definition reset_state : M (t T C E) unit :=
  exec modify (set_state empty_state) ;;
  print "Orchestrator state reset".

(** The dictionary [get_current_state] returns. *)
Definition get_current_state (o : t T C E) : CurrentState :=
  mkCurrentState (state o)
    ["trend_monitor"; "content_generator"; "engagement_tracker"]
    (length (execution_history o))
    (last (execution_history o)).

(** One turn of the [while True] loop of [continuous_monitoring]. *)
Definition monitoring_cycle (interval_seconds : Z) : M (t T C E) unit :=
  exec try_except
    (run result <~ execute_workflow (mkInput (Some "trending topics") None None None None) ;;
     print ("[" +:+ timestamp result +:+ "] Monitoring cycle complete"))
    (fun e => print ("Error in monitoring cycle: " +:+ str_exc e)) ;;
  asyncio_sleep interval_seconds.

Fixpoint monitoring_cycles (interval_seconds : Z) (cycles : nat) : M (t T C E) unit :=
  match cycles with
  | O => ret tt
  | S n => exec monitoring_cycle interval_seconds ;; monitoring_cycles interval_seconds n
  end.

(** [continuous_monitoring] never returns; this is the run of its first
    [cycles] turns. *)
Definition continuous_monitoring (interval_seconds : Z) (cycles : nat)
    : M (t T C E) unit :=
  exec print ("Starting continuous monitoring (interval: " +:+ pretty interval_seconds
              +:+ "s)") ;;
  monitoring_cycles interval_seconds cycles.

End Workflow.

(** The orchestrator [__init__] builds, with the agents [_initialize_agents]
    creates in order. *)
Definition init (config : option Config) (w : World)
    : t TrendMonitorAgent.t ContentGeneratorAgent.t EngagementTrackerAgent.t * World :=
  let config := default (mkConfig None None) config in
  let platform := default "twitter" (platform config) in
  match TrendMonitorAgent.init platform None w with
  | (tm, w1) =>
      match ContentGeneratorAgent.init platform (brand_voice config) None w1 with
      | (cg, w2) =>
          match EngagementTrackerAgent.init platform None w2 with
          | (et, w3) => (mk config (mkAgents tm cg et) [] empty_state, w3)
          end
      end
  end.

End AgentOrchestrator.

(** ** utils.py *)

Module Utils.


Definition truncate_text (text : string) (max_length : Z) : string :=
  if Z.of_nat (String.length text) <=? max_length then text
  else slice_to (max_length - 3) text +:+ "...".

End Utils.

(** ** Call sequences and sample inputs *)

(** The arguments of one call of [add_to_memory]. *)
Record MemoryCall : Type := mkCall {
  call_role : string;
  call_content : json + string;
  call_metadata : option (gmap string pyval)
}.

(** [add_to_memory] called once per element, in order. *)
Fixpoint add_all (calls : list MemoryCall) : M BaseAgent.t unit :=
  match calls with
  | [] => ret tt
  | c :: rest =>
      exec BaseAgent.add_to_memory (call_role c) (call_content c) (call_metadata c) ;;
      add_all rest
  end.

(** The entries these calls write when the clock stands at reading [tick]. *)
Fixpoint entries_of (clock : nat -> string) (tick : nat) (calls : list MemoryCall)
    : list BaseAgent.MemoryEntry :=
  match calls with
  | [] => []
  | c :: rest =>
      BaseAgent.mkEntry (clock tick) (call_role c) (call_content c)
        (default ∅ (call_metadata c))
      :: entries_of clock (S tick) rest
  end.

(** A world whose clock reads ["t0"], ["t1"], ... and that has printed nothing. *)
Definition sample_world : World :=
  mkWorld (fun n => "t" +:+ pretty n) 0 [].

Definition sample_agent : BaseAgent.t :=
  fst (BaseAgent.init "Sample" "An agent with an empty memory" None sample_world).

(** The integer stored under [key], [dflt] when the key is missing; [None]
    when the stored value is not an [int]. *)
Definition int_field (m : gmap string pyval) (key : string) (dflt : Z) : option Z :=
  match m !! key with
  | None => Some dflt
  | Some (VNum (Int z)) => Some z
  | Some _ => None
  end.


(** The sum of the numeric values stored under [key] in a list of items. *)
Definition numeric_sum (key : string) (its : list (string * pyval)) : Q :=
  foldr (fun kv acc =>
           match snd kv with
           | VNum n => if String.eqb (fst kv) key then (Qof n + acc)%Q else acc
           | _ => acc
           end) 0%Q its.





(** [{"likes": 450, "comments": 120, "shares": 85, "impressions": 12500}] *)
Definition sample_metrics : gmap string pyval :=
  <["likes" := VNum (Int 450)]>
  (<["comments" := VNum (Int 120)]>
  (<["shares" := VNum (Int 85)]>
  (<["impressions" := VNum (Int 12500)]> ∅))).


Definition sample_orchestrator
    : AgentOrchestrator.t TrendMonitorAgent.t ContentGeneratorAgent.t
        EngagementTrackerAgent.t :=
  fst (AgentOrchestrator.init None sample_world).

(** The world the constructor of [sample_orchestrator] leaves behind. *)
Definition started_world : World := snd (AgentOrchestrator.init None sample_world).

Definition sample_generator : ContentGeneratorAgent.t :=
  fst (ContentGeneratorAgent.init "twitter" None None sample_world).

(** A topic of 300 characters. *)
Definition long_topic : string := string_of_list_ascii (replicate 300 "a"%char).

(** The records [_collect_trends] fabricates. *)
Definition mock_trends : list TrendMonitorAgent.Trend :=
  [ TrendMonitorAgent.mkTrend 1 "#AIRevolution" 125000 "positive" "rising";
    TrendMonitorAgent.mkTrend 2 "#GenerativeAI" 98000 "mixed" "stable";
    TrendMonitorAgent.mkTrend 3 "#TechInnovation" 87000 "positive" "rising" ].

(** The world after one reading of the clock, and after one printed line. *)
Definition ticked (w : World) : World :=
  mkWorld (clock w) (S (ticks w)) (stdout w).

Definition printed (line : string) (w : World) : World :=
  mkWorld (clock w) (ticks w) (stdout w ++ [line]).

(** [{"likes": None}], a metrics mapping the tracker cannot add up. *)
Definition broken_metrics : gmap string pyval := {["likes" := VNone]}.

Definition broken_params : AgentOrchestrator.Input :=
  AgentOrchestrator.mkInput None None None None (Some broken_metrics).

(** No key at all, and an explicit empty topic. *)
Definition empty_params : AgentOrchestrator.Input :=
  AgentOrchestrator.mkInput None None None None None.

Definition empty_topic_params : AgentOrchestrator.Input :=
  AgentOrchestrator.mkInput None (Some "") None None None.

(** The error dictionary the handler returns for [e] caught in world [w']. *)
Definition error_result (workflow_id : string) (e : PyException) (w' : World)
    : AgentOrchestrator.WorkflowResult :=
  AgentOrchestrator.mkWorkflowResult workflow_id "error" (Some (str_exc e))
    (clock w' (ticks w')) None None None None.

Section WorkflowTraces.

Context {T C E : Type}.
Context `{!Agent T TrendMonitorAgent.Input TrendMonitorAgent.Result}.
Context `{!Agent C ContentGeneratorAgent.Input ContentGeneratorAgent.Result}.
Context `{!Agent E EngagementTrackerAgent.Input EngagementTrackerAgent.Result}.

(** [sub_agent_raises p w o e ags w'] : in the workflow started on [o] with
    parameters [p] in world [w], the [execute] of a sub-agent raises [e];
    [ags] and [w'] are the agents and the world at that moment. *)
Inductive sub_agent_raises (p : AgentOrchestrator.Input) (w : World)
    (o : AgentOrchestrator.t T C E) (e : PyException)
    : AgentOrchestrator.Agents T C E -> World -> Prop :=
  | trend_monitor_raises (t' : T) (w' : World) :
      agent_execute (AgentOrchestrator.trend_input p)
        (printed "[Step 1] Monitoring trends..." (ticked w))
        (AgentOrchestrator.trend_monitor (AgentOrchestrator.agents o))
        = (Raise e, t', w') ->
      sub_agent_raises p w o e
        (AgentOrchestrator.mkAgents t'
           (AgentOrchestrator.content_generator (AgentOrchestrator.agents o))
           (AgentOrchestrator.engagement_tracker (AgentOrchestrator.agents o))) w'
  | content_generator_raises (tr : TrendMonitorAgent.Result) (t' : T) (w2 : World)
      (topic : string) (c' : C) (w' : World) :
      agent_execute (AgentOrchestrator.trend_input p)
        (printed "[Step 1] Monitoring trends..." (ticked w))
        (AgentOrchestrator.trend_monitor (AgentOrchestrator.agents o))
        = (Ok tr, t', w2) ->
      AgentOrchestrator.resolve_topic (AgentOrchestrator.topic p)
        (TrendMonitorAgent.trends tr) = Ok topic ->
      agent_execute (AgentOrchestrator.content_input p topic)
        (printed "[Step 2] Generating content..." w2)
        (AgentOrchestrator.content_generator (AgentOrchestrator.agents o))
        = (Raise e, c', w') ->
      sub_agent_raises p w o e
        (AgentOrchestrator.mkAgents t' c'
           (AgentOrchestrator.engagement_tracker (AgentOrchestrator.agents o))) w'
  | engagement_tracker_raises (tr : TrendMonitorAgent.Result) (t' : T) (w2 : World)
      (topic : string) (cr : ContentGeneratorAgent.Result) (c' : C) (w4 : World)
      (e' : E) (w' : World) :
      agent_execute (AgentOrchestrator.trend_input p)
        (printed "[Step 1] Monitoring trends..." (ticked w))
        (AgentOrchestrator.trend_monitor (AgentOrchestrator.agents o))
        = (Ok tr, t', w2) ->
      AgentOrchestrator.resolve_topic (AgentOrchestrator.topic p)
        (TrendMonitorAgent.trends tr) = Ok topic ->
      agent_execute (AgentOrchestrator.content_input p topic)
        (printed "[Step 2] Generating content..." w2)
        (AgentOrchestrator.content_generator (AgentOrchestrator.agents o))
        = (Ok cr, c', w4) ->
      agent_execute (AgentOrchestrator.engagement_input p)
        (printed "[Step 3] Tracking engagement..." w4)
        (AgentOrchestrator.engagement_tracker (AgentOrchestrator.agents o))
        = (Raise e, e', w') ->
      sub_agent_raises p w o e (AgentOrchestrator.mkAgents t' c' e') w'.

End WorkflowTraces.

(** Two of the strings [_generate_insights] can emit. *)
Definition rising_insight : string :=
  "Multiple rising trends identified - recommend content alignment".
Definition fallback_insight : string :=
  "Monitor trends closely for emerging opportunities".

Definition tiktok_generator : ContentGeneratorAgent.t :=
  fst (ContentGeneratorAgent.init "tiktok" None None sample_world).


(** A trend source that finds nothing: its result holds an empty list. *)
Definition no_trends_execute (i : TrendMonitorAgent.Input) : M unit TrendMonitorAgent.Result :=
  run ts <~ now_isoformat ;;
  ret (TrendMonitorAgent.mkResult "success" "twitter" []
         (TrendMonitorAgent._analyze_trends [])
         (TrendMonitorAgent._generate_insights (TrendMonitorAgent._analyze_trends []))
         ts).

Definition no_trends_agent
    : Agent unit TrendMonitorAgent.Input TrendMonitorAgent.Result :=
  {| agent_execute := no_trends_execute |}.

(** [sample_orchestrator] with its trend monitor replaced by that source. *)
Definition trendless_orchestrator
    : AgentOrchestrator.t unit ContentGeneratorAgent.t EngagementTrackerAgent.t :=
  AgentOrchestrator.mk (AgentOrchestrator.config sample_orchestrator)
    (AgentOrchestrator.mkAgents tt
       (AgentOrchestrator.content_generator (AgentOrchestrator.agents sample_orchestrator))
       (AgentOrchestrator.engagement_tracker (AgentOrchestrator.agents sample_orchestrator)))
    [] AgentOrchestrator.empty_state.

(** * Properties *)

(** ** Lists, strings and rounding *)

Lemma slice_from_last {A : Type} (k : Z) (l : list A) :
  1 <= k <= Z.of_nat (length l) ->
  slice_from (- k) l = drop (length l - Z.to_nat k) l.
Proof.
  intros Hk. unfold slice_from.
  destruct (Z.ltb_spec (- k) 0) as [_ | Hge]; [| lia].
  f_equal. lia.
Qed.

Lemma string_take_length (n : nat) (s : string) :
  String.length (string_take n s) = Nat.min n (String.length s).
Proof.
  revert s. induction n as [| n IH]; intros [| c s]; simpl; try reflexivity.
  now rewrite IH.
Qed.

Lemma string_take_prefix (n : nat) (s : string) :
  exists rest, s = string_take n s +:+ rest.
Proof.
  revert s. induction n as [| n IH]; intros s.
  - exists s. reflexivity.
  - destruct s as [| c s].
    + exists "". reflexivity.
    + destruct (IH s) as [rest Hrest]. exists rest. change (String c s = String c (string_take n s +:+ rest)).
      f_equal. exact Hrest.
Qed.

Lemma string_take_all (n : nat) (s : string) :
  (String.length s <= n)%nat -> string_take n s = s.
Proof.
  revert s. induction n as [| n IH]; intros [| c s]; simpl; intros Hlen;
    try reflexivity; try lia.
  f_equal. apply IH. lia.
Qed.

Lemma Qlt_bool_iff (a b : Q) : Qlt_bool a b = true <-> (a < b)%Q.
Proof.
  unfold Qlt_bool. rewrite negb_true_iff.
  split.
  - intros Hb. apply Qnot_le_lt. intros Hle.
    apply Qle_bool_iff in Hle. congruence.
  - intros Hlt. destruct (Qle_bool b a) eqn:Hb; [| reflexivity].
    apply Qle_bool_iff in Hb. exfalso. exact (Qlt_not_le _ _ Hlt Hb).
Qed.

Lemma Qlt_bool_false_iff (a b : Q) : Qlt_bool a b = false <-> (b <= a)%Q.
Proof.
  unfold Qlt_bool. rewrite negb_false_iff. apply Qle_bool_iff.
Qed.

Lemma inject_Z_pow10_pos (n : nat) : (0 < inject_Z (pow10 n))%Q.
Proof.
  unfold pow10. change 0%Q with (inject_Z 0). rewrite <- Zlt_Qlt.
  apply Z.pow_pos_nonneg; lia.
Qed.

Lemma round_half_even_close (q : Q) :
  (Qabs (inject_Z (round_half_even q) - q) <= 1 # 2)%Q.
Proof.
  unfold round_half_even.
  pose proof (Qfloor_le q) as Hlo.
  pose proof (Qlt_floor q) as Hhi.
  rewrite inject_Z_plus in Hhi. change (inject_Z 1) with 1%Q in Hhi.
  set (f := Qfloor q) in *.
  apply Qabs_Qle_condition.
  destruct (Qcompare_spec (q - inject_Z f) (1 # 2)) as [Heq | Hlt | Hgt].
  - destruct (Z.even f); [| rewrite inject_Z_plus; change (inject_Z 1) with 1%Q];
      split; lra.
  - split; lra.
  - rewrite inject_Z_plus. change (inject_Z 1) with 1%Q. split; lra.
Qed.


Lemma round_dec_grid (n : nat) (q : Q) :
  (round_dec n q ==
   inject_Z (round_half_even (q * inject_Z (pow10 n))) / inject_Z (pow10 n))%Q.
Proof. unfold round_dec. apply Qred_correct. Qed.

(** [round_dec n q] is a multiple of [10^-n] at distance at most half a unit
    in the last place from [q]. *)
Lemma round_dec_error (n : nat) (q : Q) :
  (Qabs (round_dec n q - q) <= (1 # 2) / inject_Z (pow10 n))%Q.
Proof.
  pose proof (inject_Z_pow10_pos n) as Hpos.
  pose proof (round_half_even_close (q * inject_Z (pow10 n))) as Hclose.
  rewrite round_dec_grid.
  set (p := inject_Z (pow10 n)) in *.
  set (r := inject_Z (round_half_even (q * p))) in *.
  assert (Hne : ~ (p == 0)%Q) by lra.
  assert (Heq : (r / p - q == (r - q * p) / p)%Q) by (field; exact Hne).
  rewrite Heq. unfold Qdiv. rewrite Qabs_Qmult.
  rewrite (Qabs_pos (/ p)) by (apply Qlt_le_weak, Qinv_lt_0_compat; exact Hpos).
  apply Qmult_le_compat_r; [exact Hclose |].
  apply Qlt_le_weak, Qinv_lt_0_compat; exact Hpos.
Qed.



(** ** The agent memory *)

Lemma add_to_memory_run role content metadata (w : World) (a : BaseAgent.t) :
  BaseAgent.add_to_memory role content metadata w a =
  (Ok tt,
   BaseAgent.set_memory
     (BaseAgent.memory a ++
      [BaseAgent.mkEntry (clock w (ticks w)) role content (default ∅ metadata)]) a,
   mkWorld (clock w) (S (ticks w)) (stdout w)).
Proof. reflexivity. Qed.

Lemma entries_of_length clk tick calls :
  length (entries_of clk tick calls) = length calls.
Proof.
  revert tick. induction calls as [| c rest IH]; intros tick; simpl;
    [reflexivity | now rewrite IH].
Qed.

Lemma add_all_run (calls : list MemoryCall) (w : World) (a : BaseAgent.t) :
  add_all calls w a =
  (Ok tt,
   BaseAgent.set_memory (BaseAgent.memory a ++ entries_of (clock w) (ticks w) calls) a,
   mkWorld (clock w) (ticks w + length calls) (stdout w)).
Proof.
  revert w a. induction calls as [| c rest IH]; intros w a.
  - simpl. rewrite app_nil_r, Nat.add_0_r. now destruct a, w.
  - cbn [add_all]. unfold bind at 1. rewrite add_to_memory_run, IH.
    cbn [clock ticks stdout BaseAgent.memory BaseAgent.set_memory entries_of length].
    rewrite <- app_assoc. cbn [app].
    replace (S (ticks w) + length rest)%nat with (ticks w + S (length rest))%nat by lia.
    reflexivity.
Qed.

(** Appending is order-preserving and leaves the earlier entries alone:
    [N] calls on any agent extend its memory by [N] entries in call order,
    [get_memory()] returns all of them and [get_memory(K)] the last [K],
    for [1 <= K <= N]. *)
Lemma memory_append_only (calls : list MemoryCall) (w : World) (a : BaseAgent.t) :
  let a' := snd (fst (add_all calls w a)) in
  let written := entries_of (clock w) (ticks w) calls in
  BaseAgent.get_memory None a' = BaseAgent.memory a ++ written /\
  length written = length calls /\
  forall k : Z, 1 <= k <= Z.of_nat (length calls) ->
    BaseAgent.get_memory (Some k) a' = drop (length calls - Z.to_nat k) written.
Proof.
  cbn zeta. rewrite add_all_run. cbn [fst snd].
  split; [reflexivity |]. split; [apply entries_of_length |].
  intros k Hk. unfold BaseAgent.get_memory.
  destruct (Z.eqb_spec k 0) as [-> | _]; [lia |].
  cbn [BaseAgent.memory BaseAgent.set_memory].
  pose proof (entries_of_length (clock w) (ticks w) calls) as Hlen.
  rewrite slice_from_last by (rewrite length_app, Hlen; lia).
  rewrite length_app, Hlen, drop_app_ge by lia.
  f_equal. lia.
Qed.

(** ** The engagement tracker *)

Lemma int_field_default (m : gmap string pyval) (key : string) (dflt z : Z) :
  int_field m key dflt = Some z ->
  default (VNum (Int dflt)) (m !! key) = VNum (Int z).
Proof.
  unfold int_field. destruct (m !! key) as [[| [x | q] | s] |]; simpl; congruence.
Qed.

Lemma Qlt_bool_0_inject_Z (i : Z) : Qlt_bool 0 (inject_Z i) = (0 <? i).
Proof.
  destruct (Z.ltb_spec 0 i) as [Hpos | Hneg].
  - apply Qlt_bool_iff. change 0%Q with (inject_Z 0). now rewrite <- Zlt_Qlt.
  - apply Qlt_bool_false_iff. change 0%Q with (inject_Z 0). now rewrite <- Zle_Qle.
Qed.

Lemma Qeq_bool_inject_Z_pos (i : Z) : 0 < i -> Qeq_bool (inject_Z i) 0 = false.
Proof.
  intros Hpos. destruct (Qeq_bool (inject_Z i) 0) eqn:Heq; [| reflexivity].
  apply Qeq_bool_iff in Heq. change 0%Q with (inject_Z 0) in Heq.
  rewrite inject_Z_injective in Heq. lia.
Qed.

(** [processed] for integer counts. *)
Lemma build_processed_int (m : gmap string pyval) (l c s i : Z) :
  int_field m "likes" 0 = Some l ->
  int_field m "comments" 0 = Some c ->
  int_field m "shares" 0 = Some s ->
  int_field m "impressions" 1 = Some i ->
  EngagementTrackerAgent.build_processed m =
  let rate :=
    if 0 <? i then Float (inject_Z (l + c + s) / inject_Z i) else Int 0 in
  Ok (EngagementTrackerAgent.mkProcessed
        (VNum (Int l)) (VNum (Int c)) (VNum (Int s)) (VNum (Int i))
        (VNum (Int (l + c + s)))
        (py_round rate 4) (py_round (num_mul rate (Int 100)) 2)).
Proof.
  intros Hl Hc Hs Hi. unfold EngagementTrackerAgent.build_processed.
  rewrite (int_field_default _ _ _ _ Hl), (int_field_default _ _ _ _ Hc),
          (int_field_default _ _ _ _ Hs), (int_field_default _ _ _ _ Hi).
  cbn [py_add num_add res_bind py_gt0 Qof].
  rewrite Qlt_bool_0_inject_Z.
  destruct (Z.ltb_spec 0 i) as [Hpos | Hneg]; cbn zeta.
  - cbn [py_truediv Qof res_bind]. rewrite Qeq_bool_inject_Z_pos by exact Hpos.
    reflexivity.
  - reflexivity.
Qed.

Lemma process_metrics_run (m : gmap string pyval) (w : World)
    (a : EngagementTrackerAgent.t) :
  EngagementTrackerAgent._process_metrics m w a =
  match EngagementTrackerAgent.build_processed m with
  | Ok p =>
      (Ok p,
       EngagementTrackerAgent.set_aggregated_metrics
         (foldl EngagementTrackerAgent.aggregate_item
            (EngagementTrackerAgent.aggregated_metrics a)
            (EngagementTrackerAgent.items p)) a,
       w)
  | Raise e => (Raise e, a, w)
  end.
Proof.
  unfold EngagementTrackerAgent._process_metrics, bind, lift_res.
  destruct (EngagementTrackerAgent.build_processed m); reflexivity.
Qed.

Lemma percent_of_int (x total : Z) :
  exists n, EngagementTrackerAgent.percent_of (VNum (Int x)) (VNum (Int total)) = Ok n.
Proof.
  unfold EngagementTrackerAgent.percent_of. cbn [py_gt0 res_bind Qof].
  rewrite Qlt_bool_0_inject_Z.
  destruct (Z.ltb_spec 0 total) as [Hpos | Hneg].
  - cbn [py_truediv Qof]. rewrite Qeq_bool_inject_Z_pos by exact Hpos.
    cbn [res_bind]. eexists. reflexivity.
  - eexists. reflexivity.
Qed.

(** With integer counts the performance analysis never raises. *)
Lemma analyze_performance_int (l c s : Z) (i : pyval) (rate pct : number) :
  exists an,
    EngagementTrackerAgent._analyze_performance
      (EngagementTrackerAgent.mkProcessed (VNum (Int l)) (VNum (Int c)) (VNum (Int s)) i
         (VNum (Int (l + c + s))) rate pct) = Ok an.
Proof.
  unfold EngagementTrackerAgent._analyze_performance.
  cbn [EngagementTrackerAgent.likes EngagementTrackerAgent.comments
       EngagementTrackerAgent.shares EngagementTrackerAgent.total_interactions
       EngagementTrackerAgent.engagement_rate EngagementTrackerAgent.impressions].
  destruct (percent_of_int l (l + c + s)) as [lp ->].
  destruct (percent_of_int c (l + c + s)) as [cp ->].
  destruct (percent_of_int s (l + c + s)) as [sp ->].
  cbn [res_bind]. eexists. reflexivity.
Qed.

(** One call of [execute], step by step. *)
Lemma tracker_execute_run (i : EngagementTrackerAgent.Input) (w : World)
    (a : EngagementTrackerAgent.t) :
  EngagementTrackerAgent.execute i w a =
  match EngagementTrackerAgent.build_processed
          (default ∅ (EngagementTrackerAgent.metrics_data i)) with
  | Raise e => (Raise e, a, w)
  | Ok p =>
      let a1 :=
        EngagementTrackerAgent.set_aggregated_metrics
          (foldl EngagementTrackerAgent.aggregate_item
             (EngagementTrackerAgent.aggregated_metrics a)
             (EngagementTrackerAgent.items p)) a in
      match EngagementTrackerAgent._analyze_performance p with
      | Raise e => (Raise e, a1, w)
      | Ok an =>
          let r :=
            EngagementTrackerAgent.mkResult "success"
              (EngagementTrackerAgent.platform a) p an
              (EngagementTrackerAgent._generate_recommendations an)
              (clock w (ticks w)) in
          (Ok r,
           EngagementTrackerAgent.mk
             (BaseAgent.set_memory
                (BaseAgent.memory (EngagementTrackerAgent.base a) ++
                 [BaseAgent.mkEntry (clock w (S (ticks w))) "assistant"
                    (inl (EngagementTrackerAgent.json_of_result r)) ∅])
                (EngagementTrackerAgent.base a))
             (EngagementTrackerAgent.platform a)
             (EngagementTrackerAgent.metrics_history a ++ [r])
             (EngagementTrackerAgent.performance_threshold a)
             (foldl EngagementTrackerAgent.aggregate_item
                (EngagementTrackerAgent.aggregated_metrics a)
                (EngagementTrackerAgent.items p)),
           mkWorld (clock w) (S (S (ticks w))) (stdout w))
      end
  end.
Proof.
  unfold EngagementTrackerAgent.execute. unfold bind at 1.
  rewrite process_metrics_run.
  destruct (EngagementTrackerAgent.build_processed _) as [p | e]; [| reflexivity].
  unfold bind at 1. unfold lift_res.
  destruct (EngagementTrackerAgent._analyze_performance p) as [an | e]; reflexivity.
Qed.

Lemma aggregate_item_get (agg : gmap string Q) (kv : string * pyval) (key : string) :
  (EngagementTrackerAgent.agg_get (EngagementTrackerAgent.aggregate_item agg kv) key ==
   EngagementTrackerAgent.agg_get agg key + numeric_sum key [kv])%Q.
Proof.
  destruct kv as [k v]. unfold EngagementTrackerAgent.aggregate_item, numeric_sum.
  cbn [fst snd foldr].
  destruct v as [| n | s]; try ring.
  unfold EngagementTrackerAgent.agg_get.
  destruct (String.eqb_spec k key) as [-> | Hne].
  - rewrite lookup_insert_eq. cbn [default from_option id]. unfold id. ring.
  - rewrite lookup_insert_ne by exact Hne. ring.
Qed.

Lemma numeric_sum_cons (key : string) (kv : string * pyval) (its : list (string * pyval)) :
  (numeric_sum key (kv :: its) == numeric_sum key [kv] + numeric_sum key its)%Q.
Proof.
  unfold numeric_sum. cbn [foldr].
  destruct (snd kv) as [| n | s]; try ring.
  destruct (String.eqb (fst kv) key); ring.
Qed.

Lemma foldl_aggregate_get (its : list (string * pyval)) (agg : gmap string Q)
    (key : string) :
  (EngagementTrackerAgent.agg_get
     (foldl EngagementTrackerAgent.aggregate_item agg its) key ==
   EngagementTrackerAgent.agg_get agg key + numeric_sum key its)%Q.
Proof.
  revert agg. induction its as [| kv its IH]; intros agg.
  - cbn [foldl]. unfold numeric_sum. cbn [foldr]. ring.
  - cbn [foldl]. rewrite IH, aggregate_item_get, (numeric_sum_cons key kv its). ring.
Qed.




(** ** The trend monitor and the content generator *)

Lemma trend_execute_run (i : TrendMonitorAgent.Input) (w : World)
    (a : TrendMonitorAgent.t) :
  let r :=
    TrendMonitorAgent.mkResult "success" (TrendMonitorAgent.platform a) mock_trends
      (TrendMonitorAgent._analyze_trends mock_trends)
      (TrendMonitorAgent._generate_insights
         (TrendMonitorAgent._analyze_trends mock_trends))
      (clock w (ticks w)) in
  TrendMonitorAgent.execute i w a =
  (Ok r,
   TrendMonitorAgent.set_base
     (BaseAgent.set_memory
        (BaseAgent.memory (TrendMonitorAgent.base a) ++
         [BaseAgent.mkEntry (clock w (S (ticks w))) "assistant"
            (inl (TrendMonitorAgent.json_of_result r)) ∅])
        (TrendMonitorAgent.base a))
     (TrendMonitorAgent.set_trends_cache mock_trends a),
   mkWorld (clock w) (S (S (ticks w))) (stdout w)).
Proof. reflexivity. Qed.

Lemma generator_execute_run (i : ContentGeneratorAgent.Input) (w : World)
    (a : ContentGeneratorAgent.t) :
  let topic := default "" (ContentGeneratorAgent.topic i) in
  let tone := str_or (ContentGeneratorAgent.tone i)
                (ContentGeneratorAgent.brand_voice a !! "tone") in
  let style := str_or (ContentGeneratorAgent.style i)
                 (ContentGeneratorAgent.brand_voice a !! "style") in
  let optimized :=
    ContentGeneratorAgent._optimize_for_platform a
      (ContentGeneratorAgent._generate_content a topic tone style) in
  let text :=
    match default [] (ContentGeneratorAgent.hashtags i) with
    | [] => optimized
    | _ :: _ => optimized +:+ nl +:+ nl +:+
                String.concat " " (default [] (ContentGeneratorAgent.hashtags i))
    end in
  let r :=
    ContentGeneratorAgent.mkResult "success" (ContentGeneratorAgent.platform a)
      text topic tone style (String.length text) (clock w (ticks w)) in
  ContentGeneratorAgent.execute i w a =
  (Ok r,
   ContentGeneratorAgent.set_base
     (BaseAgent.set_memory
        (BaseAgent.memory (ContentGeneratorAgent.base a) ++
         [BaseAgent.mkEntry (clock w (S (ticks w))) "assistant"
            (inl (ContentGeneratorAgent.json_of_result r)) ∅])
        (ContentGeneratorAgent.base a))
     a,
   mkWorld (clock w) (S (S (ticks w))) (stdout w)).
Proof.
  cbn zeta. unfold ContentGeneratorAgent.execute, bind, get_self.
  destruct (default [] (ContentGeneratorAgent.hashtags i)); reflexivity.
Qed.

(** ** The orchestrator *)

Ltac workflow_simpl :=
  cbn [ret raise clock ticks stdout
       AgentOrchestrator.agents AgentOrchestrator.state AgentOrchestrator.config
       AgentOrchestrator.execution_history
       AgentOrchestrator.trend_monitor AgentOrchestrator.content_generator
       AgentOrchestrator.engagement_tracker
       AgentOrchestrator.trends AgentOrchestrator.generated_content
       AgentOrchestrator.engagement_metrics
       AgentOrchestrator.set_state AgentOrchestrator.set_agents
       AgentOrchestrator.set_execution_history
       AgentOrchestrator.set_trend_monitor AgentOrchestrator.set_content_generator
       AgentOrchestrator.set_engagement_tracker].

Section WorkflowRuns.

Context {T C E : Type}.
Context `{!Agent T TrendMonitorAgent.Input TrendMonitorAgent.Result}.
Context `{!Agent C ContentGeneratorAgent.Input ContentGeneratorAgent.Result}.
Context `{!Agent E EngagementTrackerAgent.Input EngagementTrackerAgent.Result}.

(** [execute_workflow], one agent call after the other. *)
Lemma execute_workflow_run (p : AgentOrchestrator.Input) (w : World)
    (o : AgentOrchestrator.t T C E) :
  AgentOrchestrator.execute_workflow p w o =
  let wid := clock w (ticks w) in
  match agent_execute (AgentOrchestrator.trend_input p)
          (printed "[Step 1] Monitoring trends..." (ticked w))
          (AgentOrchestrator.trend_monitor (AgentOrchestrator.agents o)) with
  | (Raise e, t', w1) =>
      (Ok (error_result wid e w1), AgentOrchestrator.set_trend_monitor t' o, ticked w1)
  | (Ok tr, t', w1) =>
      let o1 :=
        AgentOrchestrator.set_state
          (AgentOrchestrator.mkState (TrendMonitorAgent.trends tr)
             (AgentOrchestrator.generated_content (AgentOrchestrator.state o))
             (AgentOrchestrator.engagement_metrics (AgentOrchestrator.state o)))
          (AgentOrchestrator.set_trend_monitor t' o) in
      let w1' := printed "[Step 2] Generating content..." w1 in
      match AgentOrchestrator.resolve_topic (AgentOrchestrator.topic p)
              (TrendMonitorAgent.trends tr) with
      | Raise e => (Ok (error_result wid e w1'), o1, ticked w1')
      | Ok topic =>
          match agent_execute (AgentOrchestrator.content_input p topic) w1'
                  (AgentOrchestrator.content_generator (AgentOrchestrator.agents o)) with
          | (Raise e, c', w2) =>
              (Ok (error_result wid e w2),
               AgentOrchestrator.set_content_generator c' o1, ticked w2)
          | (Ok cr, c', w2) =>
              let o2 :=
                AgentOrchestrator.set_state
                  (AgentOrchestrator.mkState (TrendMonitorAgent.trends tr)
                     (AgentOrchestrator.generated_content (AgentOrchestrator.state o)
                      ++ [cr])
                     (AgentOrchestrator.engagement_metrics (AgentOrchestrator.state o)))
                  (AgentOrchestrator.set_content_generator c' o1) in
              match agent_execute (AgentOrchestrator.engagement_input p)
                      (printed "[Step 3] Tracking engagement..." w2)
                      (AgentOrchestrator.engagement_tracker
                         (AgentOrchestrator.agents o)) with
              | (Raise e, e', w3) =>
                  (Ok (error_result wid e w3),
                   AgentOrchestrator.set_engagement_tracker e' o2, ticked w3)
              | (Ok er, e', w3) =>
                  let result :=
                    AgentOrchestrator.mkWorkflowResult wid "success" None
                      (clock w3 (ticks w3))
                      (Some (TrendMonitorAgent.trends tr))
                      (Some (ContentGeneratorAgent.content cr))
                      (Some (Some (EngagementTrackerAgent.analysis er)))
                      (Some (EngagementTrackerAgent.recommendations er)) in
                  (Ok result,
                   AgentOrchestrator.mk (AgentOrchestrator.config o)
                     (AgentOrchestrator.mkAgents t' c' e')
                     (AgentOrchestrator.execution_history o ++ [result])
                     (AgentOrchestrator.mkState (TrendMonitorAgent.trends tr)
                        (AgentOrchestrator.generated_content (AgentOrchestrator.state o)
                         ++ [cr])
                        (Some (EngagementTrackerAgent.analysis er))),
                   ticked w3)
              end
          end
      end
  end.
Proof.
  unfold AgentOrchestrator.execute_workflow, AgentOrchestrator.workflow_steps,
    AgentOrchestrator.workflow_error, try_except, bind, zoom, print, modify,
    now_isoformat, get_self, lift_res, printed, ticked.
  workflow_simpl.
  destruct (agent_execute (AgentOrchestrator.trend_input p) _ _) as [[[tr | e] t'] w1];
    [| reflexivity].
  workflow_simpl.
  destruct (AgentOrchestrator.resolve_topic _ _) as [topic | e]; [| reflexivity].
  workflow_simpl.
  destruct (agent_execute (AgentOrchestrator.content_input p topic) _ _)
    as [[[cr | e] c'] w2]; [| reflexivity].
  workflow_simpl.
  destruct (agent_execute (AgentOrchestrator.engagement_input p) _ _)
    as [[[er | e] e'] w3]; reflexivity.
Qed.

(** Every invocation returns a result; the history gains that result when it
    is a success and nothing otherwise. *)
Lemma execute_workflow_returns (p : AgentOrchestrator.Input) (w : World)
    (o : AgentOrchestrator.t T C E) :
  exists r o' w',
    AgentOrchestrator.execute_workflow p w o = (Ok r, o', w') /\
    ((AgentOrchestrator.status r = "success" /\
      AgentOrchestrator.execution_history o' =
      AgentOrchestrator.execution_history o ++ [r]) \/
     (AgentOrchestrator.status r = "error" /\
      AgentOrchestrator.execution_history o' =
      AgentOrchestrator.execution_history o)).
Proof.
  rewrite execute_workflow_run. cbn zeta.
  destruct (agent_execute (AgentOrchestrator.trend_input p) _ _) as [[[tr | e] t'] w1];
    [| eexists _, _, _; split; [reflexivity | right; split; reflexivity]].
  destruct (AgentOrchestrator.resolve_topic _ _) as [topic | e];
    [| eexists _, _, _; split; [reflexivity | right; split; reflexivity]].
  destruct (agent_execute (AgentOrchestrator.content_input p topic) _ _)
    as [[[cr | e] c'] w2];
    [| eexists _, _, _; split; [reflexivity | right; split; reflexivity]].
  destruct (agent_execute (AgentOrchestrator.engagement_input p) _ _)
    as [[[er | e] e'] w3];
    eexists _, _, _; (split; [reflexivity |]); [left | right]; split; reflexivity.
Qed.

End WorkflowRuns.

(** * The claims *)

(** ** The agent memory *)

(** C7, at the limit 0: after one call of [add_to_memory] on an agent with an
    empty memory, [get_memory(0)] does not return the last 0 entries: the
    limit 0 is taken for no limit and the whole memory, one entry, comes
    back. (For 1 <= K <= N the last K entries are returned, see
    [memory_append_only].) *)
Theorem get_memory_limit_zero_returns_everything :
  let a :=
    snd (fst (add_all [mkCall "user" (inr "hello") None] sample_world sample_agent)) in
  BaseAgent.memory sample_agent = [] /\
  length (BaseAgent.get_memory None a) = 1%nat /\
  BaseAgent.get_memory (Some 0) a = BaseAgent.get_memory None a /\
  BaseAgent.get_memory (Some 0) a <> drop (1 - 0) (BaseAgent.get_memory None a).
Proof.
  cbn zeta. split; [reflexivity |]. split; [reflexivity |]. split; [reflexivity |].
  vm_compute. discriminate.
Qed.

(** ** The trend monitor *)

(** C9: [execute] of the trend monitor does not depend on its input: for any
    two inputs (and any two agents and worlds) both runs succeed and return
    the same three fabricated trends, the same analysis and the same
    insights. *)
Theorem trend_execute_input_independent
    (i1 i2 : TrendMonitorAgent.Input) (w1 w2 : World) (a1 a2 : TrendMonitorAgent.t) :
  exists r1 a1' w1' r2 a2' w2',
    TrendMonitorAgent.execute i1 w1 a1 = (Ok r1, a1', w1') /\
    TrendMonitorAgent.execute i2 w2 a2 = (Ok r2, a2', w2') /\
    TrendMonitorAgent.trends r1 = mock_trends /\
    TrendMonitorAgent.trends r2 = mock_trends /\
    length (TrendMonitorAgent.trends r1) = 3%nat /\
    TrendMonitorAgent.analysis r1 = TrendMonitorAgent.analysis r2 /\
    TrendMonitorAgent.insights r1 = TrendMonitorAgent.insights r2.
Proof.
  eexists _, _, _, _, _, _.
  split; [apply trend_execute_run |]. split; [apply trend_execute_run |].
  repeat split.
Qed.

(** ** The content generator *)

(** C2: on a generator whose platform is "twitter" the platform post-process
    keeps the first 280 characters of the text, so a longer text comes out
    with exactly 280 characters, a shorter one unchanged, and every output
    has at most 280; and on
    every generator and input, [execute] returns the post-processed text
    alone when there are no hashtags, and otherwise followed by a blank line
    and the hashtags joined by spaces. *)
Theorem twitter_truncation_and_hashtags :
  (forall (self : ContentGeneratorAgent.t) (text : string),
     ContentGeneratorAgent.platform self = "twitter" ->
     let out := ContentGeneratorAgent._optimize_for_platform self text in
     String.length out = Nat.min 280 (String.length text) /\
     (String.length out <= 280)%nat /\
     ((280 < String.length text)%nat -> String.length out = 280%nat) /\
     ((String.length text <= 280)%nat -> out = text) /\
     exists rest, text = out +:+ rest) /\
  (forall (self : ContentGeneratorAgent.t) (i : ContentGeneratorAgent.Input) (w : World),
     exists r a' w',
       ContentGeneratorAgent.execute i w self = (Ok r, a', w') /\
       let optimized :=
         ContentGeneratorAgent._optimize_for_platform self
           (ContentGeneratorAgent._generate_content self
              (ContentGeneratorAgent.result_topic r)
              (ContentGeneratorAgent.result_tone r)
              (ContentGeneratorAgent.result_style r)) in
       ContentGeneratorAgent.content r =
       match default [] (ContentGeneratorAgent.hashtags i) with
       | [] => optimized
       | first :: others =>
           optimized +:+ nl +:+ nl +:+ String.concat " " (first :: others)
       end).
Proof.
  split.
  - intros self text Htw. cbn zeta.
    unfold ContentGeneratorAgent._optimize_for_platform. rewrite Htw.
    change ("twitter" =? "twitter")%string with true. cbv iota.
    split; [apply string_take_length |].
    split; [rewrite string_take_length; lia |].
    split; [intros Hlong; rewrite string_take_length; lia |].
    split; [apply string_take_all | apply string_take_prefix].
  - intros self i w.
    pose proof (generator_execute_run i w self) as Hrun. cbn zeta in Hrun.
    eexists _, _, _. split; [exact Hrun |].
    cbn [ContentGeneratorAgent.content ContentGeneratorAgent.result_topic
         ContentGeneratorAgent.result_tone ContentGeneratorAgent.result_style].
    destruct (default [] (ContentGeneratorAgent.hashtags i)); reflexivity.
Qed.

(** Witness of C2: the generator the constructor builds for "twitter", on a
    text of 300 characters. *)
Lemma twitter_truncation_witness :
  ContentGeneratorAgent.platform sample_generator = "twitter" /\
  String.length long_topic = 300%nat /\
  String.length
    (ContentGeneratorAgent._optimize_for_platform sample_generator long_topic) = 280%nat.
Proof.
  split; [reflexivity |]. split; [reflexivity |].
  apply (proj1 twitter_truncation_and_hashtags sample_generator long_topic eq_refl).
  vm_compute. lia.
Defined.

(** The hashtags are appended after the truncation: with a 300-character
    topic and one hashtag the text [execute] returns has 285 characters. *)
Example hashtags_follow_the_truncation :
  exists r a' w',
    ContentGeneratorAgent.execute
      (ContentGeneratorAgent.mkInput (Some long_topic) None None (Some ["#AI"]))
      sample_world sample_generator = (Ok r, a', w') /\
    ContentGeneratorAgent.length r = 285%nat.
Proof. eexists _, _, _. split; [vm_compute; reflexivity | reflexivity]. Qed.

(** ** The engagement tracker *)






(** ** The orchestrator *)

Section TopicResolution.

Context {T E : Type}.
Context `{!Agent T TrendMonitorAgent.Input TrendMonitorAgent.Result}.
Context `{!Agent E EngagementTrackerAgent.Input EngagementTrackerAgent.Result}.

(** C3 (as amended): in [execute_workflow], once the trend monitor has
    returned its result, the content generator is called exactly once and the
    topic it is given (which its result echoes) is: the topic field of the
    first trend when the input has no topic, or an empty one, and the trend
    list is not empty; the explicit topic, verbatim and whatever the trend
    list holds, when the input has a non-empty topic. *)
Theorem workflow_topic_resolution
    (p : AgentOrchestrator.Input) (w : World)
    (o : AgentOrchestrator.t T ContentGeneratorAgent.t E)
    (tr : TrendMonitorAgent.Result) (t' : T) (w1 : World) :
  agent_execute (AgentOrchestrator.trend_input p)
    (printed "[Step 1] Monitoring trends..." (ticked w))
    (AgentOrchestrator.trend_monitor (AgentOrchestrator.agents o)) = (Ok tr, t', w1) ->
  let o' := snd (fst (AgentOrchestrator.execute_workflow p w o)) in
  let generated o := AgentOrchestrator.generated_content (AgentOrchestrator.state o) in
  (forall first rest,
     AgentOrchestrator.topic p = None \/ AgentOrchestrator.topic p = Some "" ->
     TrendMonitorAgent.trends tr = first :: rest ->
     exists cr,
       generated o' = generated o ++ [cr] /\
       ContentGeneratorAgent.result_topic cr = TrendMonitorAgent.topic first) /\
  (forall s,
     AgentOrchestrator.topic p = Some s -> s <> "" ->
     exists cr,
       generated o' = generated o ++ [cr] /\
       ContentGeneratorAgent.result_topic cr = s).
Proof.
  intros Htrend. cbn zeta.
  assert (Hstep : forall topic,
            AgentOrchestrator.resolve_topic (AgentOrchestrator.topic p)
              (TrendMonitorAgent.trends tr) = Ok topic ->
            exists cr,
              AgentOrchestrator.generated_content
                (AgentOrchestrator.state
                   (snd (fst (AgentOrchestrator.execute_workflow p w o)))) =
              AgentOrchestrator.generated_content (AgentOrchestrator.state o) ++ [cr] /\
              ContentGeneratorAgent.result_topic cr = topic).
  { intros topic Htopic. rewrite execute_workflow_run. cbn zeta.
    rewrite Htrend, Htopic.
    change (agent_execute (AgentOrchestrator.content_input p topic))
      with (ContentGeneratorAgent.execute (AgentOrchestrator.content_input p topic)).
    pose proof (generator_execute_run (AgentOrchestrator.content_input p topic)
                  (printed "[Step 2] Generating content..." w1)
                  (AgentOrchestrator.content_generator (AgentOrchestrator.agents o)))
      as Hgen.
    cbn zeta in Hgen. rewrite Hgen.
    destruct (agent_execute (AgentOrchestrator.engagement_input p) _ _)
      as [[[er | e] e'] w3];
      eexists; split; reflexivity. }
  split.
  - intros first rest Hnone Htrends. apply Hstep.
    unfold AgentOrchestrator.resolve_topic. rewrite Htrends.
    destruct Hnone as [-> | ->]; reflexivity.
  - intros s Hs Hne. apply Hstep.
    unfold AgentOrchestrator.resolve_topic. rewrite Hs.
    destruct (String.eqb_spec s "") as [Heq | _]; [contradiction | reflexivity].
Qed.

End TopicResolution.

(** Witness of C3: the orchestrator the constructor builds, called without a
    topic, writes about the first fabricated trend. *)
Lemma workflow_topic_resolution_witness :
  exists cr,
    AgentOrchestrator.generated_content
      (AgentOrchestrator.state
         (snd (fst (AgentOrchestrator.execute_workflow empty_params started_world
                      sample_orchestrator)))) = [cr] /\
    ContentGeneratorAgent.result_topic cr = "#AIRevolution".
Proof.
  pose proof (trend_execute_run (AgentOrchestrator.trend_input empty_params)
                (printed "[Step 1] Monitoring trends..." (ticked started_world))
                (AgentOrchestrator.trend_monitor
                   (AgentOrchestrator.agents sample_orchestrator))) as Htrend.
  cbn zeta in Htrend.
  destruct (@workflow_topic_resolution _ _ trend_monitor_agent engagement_tracker_agent
              empty_params started_world sample_orchestrator _ _ _ Htrend)
    as [Hfirst _].
  destruct (Hfirst _ _ (or_introl eq_refl) eq_refl) as (cr & Hgen & Htopic).
  exists cr. split; [exact Hgen | exact Htopic].
Defined.

(** C3 as stated fails: an explicit topic that is the empty string is not
    used; the content generator is given the first trend's topic. *)
Lemma empty_topic_is_replaced :
  AgentOrchestrator.topic empty_topic_params = Some "" /\
  exists r o' w' cr,
    AgentOrchestrator.execute_workflow empty_topic_params started_world
      sample_orchestrator = (Ok r, o', w') /\
    AgentOrchestrator.status r = "success" /\
    AgentOrchestrator.generated_content (AgentOrchestrator.state o') = [cr] /\
    ContentGeneratorAgent.result_topic cr = "#AIRevolution" /\
    ContentGeneratorAgent.result_topic cr <> "".
Proof.
  split; [reflexivity |].
  eexists _, _, _, _. split; [vm_compute; reflexivity |].
  split; [reflexivity |]. split; [reflexivity |]. split; [reflexivity | discriminate].
Qed.

Section WorkflowClaims.

Context {T C E : Type}.
Context `{!Agent T TrendMonitorAgent.Input TrendMonitorAgent.Result}.
Context `{!Agent C ContentGeneratorAgent.Input ContentGeneratorAgent.Result}.
Context `{!Agent E EngagementTrackerAgent.Input EngagementTrackerAgent.Result}.

(** C4 (as amended): every invocation of [execute_workflow] returns a result;
    when its status is "success" the result is appended to the execution
    history, which grows by exactly that one entry with all earlier entries
    unchanged; when its status is "error" the history is left as it was.
    [reset_state] does not touch the history either, so nothing prunes it. *)
Theorem history_grows_on_success_only :
  (forall (p : AgentOrchestrator.Input) (w : World) (o : AgentOrchestrator.t T C E),
     exists r o' w',
       AgentOrchestrator.execute_workflow p w o = (Ok r, o', w') /\
       ((AgentOrchestrator.status r = "success" /\
         AgentOrchestrator.execution_history o' =
         AgentOrchestrator.execution_history o ++ [r]) \/
        (AgentOrchestrator.status r = "error" /\
         AgentOrchestrator.execution_history o' =
         AgentOrchestrator.execution_history o))) /\
  (forall (w : World) (o : AgentOrchestrator.t T C E),
     AgentOrchestrator.execution_history (snd (fst (AgentOrchestrator.reset_state w o)))
     = AgentOrchestrator.execution_history o).
Proof.
  split; [apply execute_workflow_returns | reflexivity].
Qed.

(** C5: no exception crosses [execute_workflow]: every invocation returns a
    result; and when the [execute] of a sub-agent raises [e], the result has
    status "error" and carries [str(e)] as its error, the agents are left as
    they were when [e] was raised (no agent is called again, none of the
    later ones is called at all), and the only further effect is the reading
    of the clock for the result's timestamp. *)
Theorem workflow_exceptions_are_caught :
  (forall (p : AgentOrchestrator.Input) (w : World) (o : AgentOrchestrator.t T C E),
     exists r o' w', AgentOrchestrator.execute_workflow p w o = (Ok r, o', w')) /\
  (forall (p : AgentOrchestrator.Input) (w : World) (o : AgentOrchestrator.t T C E)
          (e : PyException) (ags : AgentOrchestrator.Agents T C E) (w1 : World),
     sub_agent_raises p w o e ags w1 ->
     exists r o',
       AgentOrchestrator.execute_workflow p w o = (Ok r, o', ticked w1) /\
       AgentOrchestrator.status r = "error" /\
       AgentOrchestrator.error r = Some (str_exc e) /\
       AgentOrchestrator.agents o' = ags /\
       AgentOrchestrator.execution_history o' = AgentOrchestrator.execution_history o).
Proof.
  split.
  - intros p w o.
    destruct (execute_workflow_returns p w o) as (r & o' & w' & Hrun & _).
    now exists r, o', w'.
  - intros p w o e ags w1 Hraise. rewrite execute_workflow_run. cbn zeta.
    destruct Hraise as [t' w' Ht | tr t' w2 topic c' w' Ht Htopic Hc
                        | tr t' w2 topic cr c' w4 e' w' Ht Htopic Hc He].
    + rewrite Ht. eexists _, _. repeat split.
    + rewrite Ht, Htopic, Hc. eexists _, _. repeat split.
    + rewrite Ht, Htopic, Hc, He. eexists _, _. repeat split.
Qed.

End WorkflowClaims.

(** C4 as stated fails: a workflow whose metrics cannot be added up returns
    an "error" result and the history does not grow. *)
Lemma error_result_is_not_recorded :
  exists r o' w',
    AgentOrchestrator.execute_workflow broken_params started_world sample_orchestrator
      = (Ok r, o', w') /\
    AgentOrchestrator.status r = "error" /\
    AgentOrchestrator.execution_history sample_orchestrator = [] /\
    AgentOrchestrator.execution_history o' = [] /\
    length (AgentOrchestrator.execution_history o') <>
    S (length (AgentOrchestrator.execution_history sample_orchestrator)).
Proof.
  eexists _, _, _. split; [vm_compute; reflexivity |].
  repeat split. discriminate.
Qed.

(** Witness of C5: the engagement tracker raises a [TypeError] on
    [{"likes": None}] and the workflow returns it as an error result. *)
Lemma workflow_exceptions_are_caught_witness :
  exists r o' w',
    AgentOrchestrator.execute_workflow broken_params started_world sample_orchestrator
      = (Ok r, o', w') /\
    AgentOrchestrator.status r = "error" /\
    AgentOrchestrator.error r
      = Some "unsupported operand type(s) for +: 'NoneType' and 'int'".
Proof.
  assert (Hraise : exists ags w1,
            sub_agent_raises broken_params started_world sample_orchestrator
              (TypeError "unsupported operand type(s) for +: 'NoneType' and 'int'")
              ags w1).
  { eexists _, _. eapply engagement_tracker_raises.
    - vm_compute. reflexivity.
    - vm_compute. reflexivity.
    - vm_compute. reflexivity.
    - vm_compute. reflexivity. }
  destruct Hraise as (ags & w1 & Hraise).
  destruct (proj2 workflow_exceptions_are_caught _ _ _ _ _ _ Hraise)
    as (r & o' & Hrun & Hstatus & Herror & _).
  exists r, o', (ticked w1). repeat split; assumption.
Defined.

(** C10: [reset_state] replaces the state mapping by the empty one (no
    trends, no generated content, no engagement metrics) and leaves the
    configuration, the execution history and the agents as they are; in
    particular the memory of each agent and the running totals and the
    metrics history of the engagement tracker are unchanged. Its only other
    effect is one printed line. *)
Theorem reset_state_frame :
  (forall (T C E : Type) (w : World) (o : AgentOrchestrator.t T C E),
     exists o',
       AgentOrchestrator.reset_state w o
         = (Ok tt, o', printed "Orchestrator state reset" w) /\
       AgentOrchestrator.state o' = AgentOrchestrator.mkState [] [] None /\
       AgentOrchestrator.execution_history o' = AgentOrchestrator.execution_history o /\
       AgentOrchestrator.agents o' = AgentOrchestrator.agents o /\
       AgentOrchestrator.config o' = AgentOrchestrator.config o) /\
  (forall (w : World)
          (o : AgentOrchestrator.t TrendMonitorAgent.t ContentGeneratorAgent.t
                 EngagementTrackerAgent.t),
     let before := AgentOrchestrator.agents o in
     let after :=
       AgentOrchestrator.agents (snd (fst (AgentOrchestrator.reset_state w o))) in
     BaseAgent.memory (TrendMonitorAgent.base (AgentOrchestrator.trend_monitor after))
       = BaseAgent.memory (TrendMonitorAgent.base (AgentOrchestrator.trend_monitor before)) /\
     BaseAgent.memory
       (ContentGeneratorAgent.base (AgentOrchestrator.content_generator after))
       = BaseAgent.memory
           (ContentGeneratorAgent.base (AgentOrchestrator.content_generator before)) /\
     BaseAgent.memory
       (EngagementTrackerAgent.base (AgentOrchestrator.engagement_tracker after))
       = BaseAgent.memory
           (EngagementTrackerAgent.base (AgentOrchestrator.engagement_tracker before)) /\
     EngagementTrackerAgent.aggregated_metrics (AgentOrchestrator.engagement_tracker after)
       = EngagementTrackerAgent.aggregated_metrics
           (AgentOrchestrator.engagement_tracker before) /\
     EngagementTrackerAgent.metrics_history (AgentOrchestrator.engagement_tracker after)
       = EngagementTrackerAgent.metrics_history
           (AgentOrchestrator.engagement_tracker before)).
Proof.
  split.
  - intros T C E w o. eexists. repeat split.
  - intros w o. repeat split.
Qed.

(** * Further properties of the code *)

(** ** utils.py *)

Lemma string_length_append (s1 s2 : string) :
  String.length (s1 +:+ s2) = (String.length s1 + String.length s2)%nat.
Proof.
  induction s1 as [| c s1 IH]; [reflexivity |].
  change (String c s1 +:+ s2) with (String c (s1 +:+ s2)).
  cbn [String.length]. now rewrite IH.
Qed.

Lemma slice_to_length (stop : Z) (s : string) :
  Z.of_nat (String.length (slice_to stop s)) =
  if stop <? 0 then Z.max 0 (stop + Z.of_nat (String.length s))
  else Z.min stop (Z.of_nat (String.length s)).
Proof.
  unfold slice_to. rewrite string_take_length.
  destruct (Z.ltb_spec stop 0); lia.
Qed.

(** [truncate_text] with a limit of at least 3: the result never exceeds the
    limit; a text that fits is returned as it is; a longer one is cut to
    [max_length - 3] characters followed by "...", exactly [max_length]
    characters in all. *)
Theorem truncate_text_fits (text : string) (max_length : Z) :
  3 <= max_length ->
  let out := Utils.truncate_text text max_length in
  Z.of_nat (String.length out) <= max_length /\
  (Z.of_nat (String.length text) <= max_length -> out = text) /\
  (max_length < Z.of_nat (String.length text) ->
   out = string_take (Z.to_nat (max_length - 3)) text +:+ "..." /\
   Z.of_nat (String.length out) = max_length).
Proof.
  intros Hmax. cbn zeta. unfold Utils.truncate_text.
  destruct (Z.leb_spec (Z.of_nat (String.length text)) max_length) as [Hfit | Hlong].
  - split; [exact Hfit |]. split; [reflexivity | lia].
  - assert (Hslice : slice_to (max_length - 3) text
                     = string_take (Z.to_nat (max_length - 3)) text).
    { unfold slice_to. destruct (Z.ltb_spec (max_length - 3) 0); [lia |].
      f_equal. lia. }
    rewrite Hslice, string_length_append, string_take_length.
    cbn [String.length]. split; [lia |]. split; [lia |].
    intros _. split; [reflexivity | lia].
Qed.

Lemma truncate_text_fits_witness :
  Utils.truncate_text "hello world" 8 = "hello...".
Proof.
  destruct (truncate_text_fits "hello world" 8 ltac:(lia)) as (_ & _ & Hlong).
  destruct (Hlong ltac:(cbn; lia)) as [Hout _]. exact Hout.
Defined.

(** [truncate_text] with a limit below 3 (negative ones included): a text
    longer than the limit is not shortened to it; the slice bound
    [max_length - 3] is negative and counts from the end, so the result
    keeps all but the last [3 - max_length] characters, adds "..." and is
    longer than the limit. *)
Theorem truncate_text_small_limit (text : string) (max_length : Z) :
  max_length < 3 ->
  max_length < Z.of_nat (String.length text) ->
  let out := Utils.truncate_text text max_length in
  Z.of_nat (String.length out)
    = Z.max 0 (Z.of_nat (String.length text) - (3 - max_length)) + 3 /\
  max_length < Z.of_nat (String.length out).
Proof.
  intros Hsmall Hlong. cbn zeta. unfold Utils.truncate_text.
  destruct (Z.leb_spec (Z.of_nat (String.length text)) max_length) as [Hfit | _]; [lia |].
  rewrite string_length_append, Nat2Z.inj_add, slice_to_length.
  destruct (Z.ltb_spec (max_length - 3) 0); [| lia].
  cbn [String.length]. lia.
Qed.

Lemma truncate_text_small_limit_witness :
  Utils.truncate_text "abcdef" 2 = "abcde..." /\
  2 < Z.of_nat (String.length (Utils.truncate_text "abcdef" 2)).
Proof.
  split; [reflexivity |].
  apply (truncate_text_small_limit "abcdef" 2); cbn; lia.
Defined.

(** ** agents/base_agent.py *)

(** [get_memory(limit)] with a positive limit returns the last [limit]
    entries, or the whole memory when it holds fewer: the result is the
    memory without its first [len - limit] entries and has
    [min(limit, len)] entries. *)
Theorem get_memory_positive_limit (a : BaseAgent.t) (k : Z) :
  1 <= k ->
  BaseAgent.get_memory (Some k) a
    = drop (length (BaseAgent.memory a) - Z.to_nat k) (BaseAgent.memory a) /\
  length (BaseAgent.get_memory (Some k) a)
    = Nat.min (Z.to_nat k) (length (BaseAgent.memory a)) /\
  (Z.of_nat (length (BaseAgent.memory a)) <= k ->
   BaseAgent.get_memory (Some k) a = BaseAgent.memory a).
Proof.
  intros Hk. unfold BaseAgent.get_memory.
  destruct (Z.eqb_spec k 0) as [-> | _]; [lia |].
  assert (Hslice : slice_from (- k) (BaseAgent.memory a)
                   = drop (length (BaseAgent.memory a) - Z.to_nat k) (BaseAgent.memory a)).
  { unfold slice_from. destruct (Z.ltb_spec (- k) 0); [| lia]. f_equal. lia. }
  rewrite Hslice. split; [reflexivity |]. split.
  - rewrite length_drop. lia.
  - intros Hall.
    replace (length (BaseAgent.memory a) - Z.to_nat k)%nat with 0%nat by lia.
    reflexivity.
Qed.

Lemma get_memory_positive_limit_witness :
  let a :=
    snd (fst (add_all [mkCall "user" (inr "one") None; mkCall "user" (inr "two") None]
                sample_world sample_agent)) in
  length (BaseAgent.get_memory (Some 5) a) = 2%nat /\
  length (BaseAgent.get_memory (Some 1) a) = 1%nat.
Proof.
  cbn zeta. split.
  - rewrite (proj1 (proj2 (get_memory_positive_limit _ 5 ltac:(lia)))). reflexivity.
  - rewrite (proj1 (proj2 (get_memory_positive_limit _ 1 ltac:(lia)))). reflexivity.
Defined.

(** [get_memory(limit)] with a negative limit [-k]: the slice [memory[k:]]
    drops the first [k] entries instead of keeping the last ones. *)
Theorem get_memory_negative_limit (a : BaseAgent.t) (k : Z) :
  1 <= k ->
  BaseAgent.get_memory (Some (- k)) a = drop (Z.to_nat k) (BaseAgent.memory a).
Proof.
  intros Hk. unfold BaseAgent.get_memory.
  destruct (Z.eqb_spec (- k) 0) as [Heq | _]; [lia |].
  unfold slice_from. rewrite Z.opp_involutive.
  destruct (Z.ltb_spec k 0); [lia |].
  destruct (Z.le_ge_cases k (Z.of_nat (length (BaseAgent.memory a)))) as [Hle | Hge].
  - f_equal. lia.
  - rewrite Z.min_r by lia. rewrite Nat2Z.id.
    rewrite !drop_ge by lia. reflexivity.
Qed.

Lemma get_memory_negative_limit_witness :
  let a :=
    snd (fst (add_all [mkCall "user" (inr "one") None; mkCall "user" (inr "two") None;
                       mkCall "user" (inr "three") None]
                sample_world sample_agent)) in
  map BaseAgent.content (BaseAgent.get_memory (Some (- 1)) a)
    = [inr "two"; inr "three"].
Proof.
  cbn zeta. rewrite (get_memory_negative_limit _ 1 ltac:(lia)). reflexivity.
Defined.

(** [clear_memory] empties the memory and nothing else; the [memory_size]
    that [get_state] reports counts the calls of [add_to_memory] since the
    last [clear_memory], and the name, description, configuration and
    creation time it reports never change. *)
Theorem memory_size_counts_since_clear
    (before after : list MemoryCall) (w : World) (a : BaseAgent.t) :
  exists a' w',
    (exec add_all before ;; exec BaseAgent.clear_memory ;; add_all after) w a
      = (Ok tt, a', w') /\
    BaseAgent.memory_size (BaseAgent.get_state a') = length after /\
    BaseAgent.get_memory None a'
      = entries_of (clock w) (ticks w + length before) after /\
    BaseAgent.state_name (BaseAgent.get_state a')
      = BaseAgent.state_name (BaseAgent.get_state a) /\
    BaseAgent.state_description (BaseAgent.get_state a')
      = BaseAgent.state_description (BaseAgent.get_state a) /\
    BaseAgent.state_created_at (BaseAgent.get_state a')
      = BaseAgent.state_created_at (BaseAgent.get_state a) /\
    BaseAgent.state_config (BaseAgent.get_state a')
      = BaseAgent.state_config (BaseAgent.get_state a).
Proof.
  eexists _, _. split.
  - unfold bind at 1. rewrite add_all_run.
    unfold bind at 1, BaseAgent.clear_memory, modify.
    rewrite add_all_run. reflexivity.
  - cbn [BaseAgent.get_state BaseAgent.memory_size BaseAgent.get_memory
         BaseAgent.memory BaseAgent.set_memory BaseAgent.state_name
         BaseAgent.state_description BaseAgent.state_created_at BaseAgent.state_config
         BaseAgent.name BaseAgent.description BaseAgent.created_at BaseAgent.config
         clock ticks app].
    rewrite entries_of_length. repeat split.
Qed.

(** ** agents/trend_monitor.py *)

Lemma count_if_bounds (p : TrendMonitorAgent.Trend -> bool)
    (trends : list TrendMonitorAgent.Trend) :
  0 <= TrendMonitorAgent.count_if p trends <= Z.of_nat (length trends).
Proof.
  unfold TrendMonitorAgent.count_if.
  pose proof (length_filter (fun t => p t = true) trends). lia.
Qed.

Lemma fraction_bounds (c n : Z) :
  0 <= c <= n -> 0 < n ->
  (0 <= inject_Z c / inject_Z n /\ inject_Z c / inject_Z n <= 1)%Q.
Proof.
  intros Hc Hn.
  assert (Hpos : (0 < inject_Z n)%Q)
    by (change 0%Q with (inject_Z 0); now rewrite <- Zlt_Qlt).
  split.
  - apply Qle_shift_div_l; [exact Hpos |]. rewrite Qmult_0_l.
    change 0%Q with (inject_Z 0). rewrite <- Zle_Qle. lia.
  - apply Qle_shift_div_r; [exact Hpos |]. rewrite Qmult_1_l.
    rewrite <- Zle_Qle. lia.
Qed.

(** [_analyze_trends] on any list of trends: [total_trends] is the length;
    the shares of positive and of rising trends lie between 0 and 1; and on
    the empty list nothing is divided: the three averages are 0 and the
    engagement potential is "medium". *)
Theorem analyze_trends_fractions (trends : list TrendMonitorAgent.Trend) :
  let an := TrendMonitorAgent._analyze_trends trends in
  TrendMonitorAgent.total_trends an = Z.of_nat (length trends) /\
  (0 <= Qof (TrendMonitorAgent.positive_sentiment an) <= 1)%Q /\
  (0 <= Qof (TrendMonitorAgent.rising_momentum an) <= 1)%Q /\
  (trends = [] ->
   an = TrendMonitorAgent.mkAnalysis 0 (Int 0) (Int 0) (Int 0) "medium").
Proof.
  cbn zeta. unfold TrendMonitorAgent._analyze_trends.
  cbn [TrendMonitorAgent.total_trends TrendMonitorAgent.positive_sentiment
       TrendMonitorAgent.rising_momentum].
  split; [reflexivity |].
  destruct (Z.eqb_spec (Z.of_nat (length trends)) 0) as [Hzero | Hpos]; cbn [negb].
  - split; [cbn; split; discriminate |]. split; [cbn; split; discriminate |].
    intros ->. reflexivity.
  - split; [| split].
    + apply fraction_bounds; [apply count_if_bounds | lia].
    + apply fraction_bounds; [apply count_if_bounds | lia].
    + intros ->. cbn in Hpos. lia.
Qed.

Lemma rising_insight_iff (an : TrendMonitorAgent.Analysis) :
  In rising_insight (TrendMonitorAgent._generate_insights an) <->
  Qlt_bool (1 # 2) (Qof (TrendMonitorAgent.rising_momentum an)) = true.
Proof.
  unfold TrendMonitorAgent._generate_insights, rising_insight.
  destruct (Qlt_bool (6 # 10) _), (Qlt_bool (1 # 2) _), (Qlt_bool (inject_Z 90000) _);
    cbn [app In]; split; intros H; try reflexivity; try discriminate;
    try (now auto);
    repeat (destruct H as [H | H]; try discriminate H); try contradiction.
Qed.

(** The two places that test for a majority of rising trends agree: the
    engagement potential [_analyze_trends] reports is "high" exactly when
    [_generate_insights] emits the rising-trends insight for that analysis,
    that is when more than half of the trends are rising. *)
Theorem high_potential_iff_rising_insight (trends : list TrendMonitorAgent.Trend) :
  let an := TrendMonitorAgent._analyze_trends trends in
  let rising :=
    TrendMonitorAgent.count_if
      (fun t => String.eqb (TrendMonitorAgent.momentum t) "rising") trends in
  (TrendMonitorAgent.engagement_potential an = "high" <->
   In rising_insight (TrendMonitorAgent._generate_insights an)) /\
  (TrendMonitorAgent.engagement_potential an = "high" <->
   Z.of_nat (length trends) < 2 * rising).
Proof.
  cbn zeta. rewrite rising_insight_iff.
  unfold TrendMonitorAgent._analyze_trends.
  cbn [TrendMonitorAgent.engagement_potential TrendMonitorAgent.rising_momentum].
  set (r := TrendMonitorAgent.count_if _ trends).
  pose proof (count_if_bounds
                (fun t => String.eqb (TrendMonitorAgent.momentum t) "rising") trends)
    as Hr. fold r in Hr.
  set (n := Z.of_nat (length trends)) in *.
  assert (Hhalf : Qlt_bool (inject_Z n * (1 # 2)) (inject_Z r) = true <-> n < 2 * r).
  { rewrite Qlt_bool_iff. unfold Qlt, Qmult, inject_Z. cbn [Qnum Qden]. lia. }
  assert (Hhigh : (if Qlt_bool (inject_Z n * (1 # 2)) (inject_Z r)
                   then "high" else "medium") = "high" <-> n < 2 * r).
  { rewrite <- Hhalf. destruct (Qlt_bool _ _); split; intros H;
      try reflexivity; discriminate. }
  split; [| exact Hhigh].
  rewrite Hhigh.
  destruct (Z.eqb_spec n 0) as [Hzero | Hpos]; cbn [negb Qof num_div].
  - rewrite Qlt_bool_iff. unfold Qlt. cbn. split; intros H; lia.
  - rewrite Qlt_bool_iff.
    assert (Hn : (0 < inject_Z n)%Q)
      by (change 0%Q with (inject_Z 0); rewrite <- Zlt_Qlt; lia).
    split; intros H.
    + apply Qlt_shift_div_l; [exact Hn |].
      unfold Qlt, Qmult, inject_Z. cbn [Qnum Qden]. lia.
    + assert (Hmul : ((1 # 2) * inject_Z n < inject_Z r)%Q).
      { apply (Qmult_lt_r _ _ (inject_Z n)) in H; [| exact Hn].
        unfold Qdiv in H.
        rewrite <- Qmult_assoc, (Qmult_comm (/ inject_Z n)), Qmult_inv_r, Qmult_1_r in H
          by lra.
        exact H. }
      unfold Qlt, Qmult, inject_Z in Hmul. cbn [Qnum Qden] in Hmul. lia.
Qed.

(** [_generate_insights] never returns an empty list: it emits between one
    and three insights, and the generic fallback is emitted, alone, exactly
    when none of the three threshold rules fires. *)
Theorem insights_never_empty (an : TrendMonitorAgent.Analysis) :
  let insights := TrendMonitorAgent._generate_insights an in
  (1 <= length insights <= 3)%nat /\
  (insights = [fallback_insight] <->
   Qlt_bool (6 # 10) (Qof (TrendMonitorAgent.positive_sentiment an)) = false /\
   Qlt_bool (1 # 2) (Qof (TrendMonitorAgent.rising_momentum an)) = false /\
   Qlt_bool (inject_Z 90000) (Qof (TrendMonitorAgent.avg_volume an)) = false) /\
  (In fallback_insight insights -> insights = [fallback_insight]).
Proof.
  cbn zeta. unfold TrendMonitorAgent._generate_insights, fallback_insight.
  destruct (Qlt_bool (6 # 10) _), (Qlt_bool (1 # 2) _), (Qlt_bool (inject_Z 90000) _);
    cbn [app length In];
    (split; [lia |]); (split; [split; [intros H; discriminate H || (now auto)
                                      | intros (H1 & H2 & H3);
                                        discriminate || reflexivity] |]);
    intros H; try reflexivity;
    repeat (destruct H as [H | H]; try discriminate H); contradiction.
Qed.

Lemma pretty_three : pretty (length mock_trends) = "3".
Proof. vm_compute. reflexivity. Qed.

(** [process] of the trend monitor records the message as a "user" entry,
    then the result of [execute] as an "assistant" entry, in that order and
    after the entries already there, and answers with the message quoted and
    a count of trends that is always 3. *)
Theorem trend_process_response (message : string) (w : World)
    (a : TrendMonitorAgent.t) :
  exists a' r,
    TrendMonitorAgent.process message w a
      = (Ok ("Trend Analysis for '" +:+ message +:+ "': 3 trends identified"),
         a', mkWorld (clock w) (3 + ticks w) (stdout w)) /\
    BaseAgent.memory (TrendMonitorAgent.base a')
      = BaseAgent.memory (TrendMonitorAgent.base a) ++
        [ BaseAgent.mkEntry (clock w (ticks w)) "user" (inr message) ∅;
          BaseAgent.mkEntry (clock w (2 + ticks w)) "assistant"
            (inl (TrendMonitorAgent.json_of_result r)) ∅ ] /\
    TrendMonitorAgent.trends r = mock_trends /\
    TrendMonitorAgent.timestamp r = clock w (1 + ticks w) /\
    TrendMonitorAgent.get_cached_trends a' = mock_trends.
Proof.
  eexists _, _. split.
  - unfold TrendMonitorAgent.process. unfold bind at 1.
    unfold TrendMonitorAgent.add_to_memory, zoom. rewrite add_to_memory_run.
    unfold bind at 1. rewrite trend_execute_run. cbn zeta.
    cbn [TrendMonitorAgent.trends]. rewrite pretty_three. reflexivity.
  - cbn [TrendMonitorAgent.base TrendMonitorAgent.set_base
         TrendMonitorAgent.set_trends_cache BaseAgent.memory BaseAgent.set_memory
         TrendMonitorAgent.trends TrendMonitorAgent.timestamp
         TrendMonitorAgent.get_cached_trends TrendMonitorAgent.trends_cache
         clock ticks stdout default].
    rewrite <- app_assoc. repeat split.
Qed.

(** ** agents/content_generator.py *)

(** Only the twitter post-process can lose text: on every other platform
    the generated text comes out whole, behind the hook label on tiktok,
    behind the visual label and a line break on instagram, and unchanged on
    a platform the generator does not know. *)
Theorem other_platforms_keep_the_text (self : ContentGeneratorAgent.t) (text : string) :
  ContentGeneratorAgent.platform self <> "twitter" ->
  let out := ContentGeneratorAgent._optimize_for_platform self text in
  (ContentGeneratorAgent.platform self = "tiktok" -> out = "Hook: " +:+ text) /\
  (ContentGeneratorAgent.platform self = "instagram" ->
   out = "[Visual: infographic]" +:+ nl +:+ text) /\
  (ContentGeneratorAgent.platform self <> "tiktok" ->
   ContentGeneratorAgent.platform self <> "instagram" -> out = text) /\
  (exists label, out = label +:+ text) /\
  (String.length text <= String.length out)%nat.
Proof.
  intros Htw. cbn zeta. unfold ContentGeneratorAgent._optimize_for_platform.
  destruct (String.eqb_spec (ContentGeneratorAgent.platform self) "twitter")
    as [Heq | _]; [contradiction |].
  destruct (String.eqb_spec (ContentGeneratorAgent.platform self) "tiktok")
    as [Htik | Htik].
  { split; [intros _; reflexivity |].
    split; [intros H; rewrite Htik in H; discriminate H |].
    split; [intros H; contradiction |].
    split; [eexists; reflexivity | rewrite string_length_append; lia]. }
  destruct (String.eqb_spec (ContentGeneratorAgent.platform self) "instagram")
    as [Hins | Hins].
  { split; [intros H; contradiction |].
    split; [intros _; reflexivity |].
    split; [intros _ H; contradiction |].
    split; [exists ("[Visual: infographic]" +:+ nl); reflexivity
           | rewrite !string_length_append; lia]. }
  split; [intros H; contradiction |].
  split; [intros H; contradiction |].
  split; [intros _ _; reflexivity |].
  split; [exists ""; reflexivity | lia].
Qed.

Lemma other_platforms_keep_the_text_witness :
  ContentGeneratorAgent._optimize_for_platform tiktok_generator long_topic
    = "Hook: " +:+ long_topic.
Proof.
  assert (Hne : ContentGeneratorAgent.platform tiktok_generator <> "twitter")
    by discriminate.
  destruct (other_platforms_keep_the_text tiktok_generator long_topic Hne)
    as (Htik & _).
  apply Htik. reflexivity.
Defined.

Lemma foldl_snoc_map {A B : Type} (f : A -> B) (l : list A) (acc : list B) :
  foldl (fun out x => out ++ [f x]) acc l = acc ++ map f l.
Proof.
  revert acc. induction l as [| x l IH]; intros acc; cbn [foldl map].
  - now rewrite app_nil_r.
  - rewrite IH, <- app_assoc. reflexivity.
Qed.

(** [generate_carousel] returns one text per topic, in the order of the
    topics, each the text [_generate_content] gives for that topic alone with
    the brand tone and the requested style; it reads no clock, writes no
    memory entry and leaves the agent as it was. *)
Theorem carousel_is_pointwise (topics : list string) (style : string) (w : World)
    (a : ContentGeneratorAgent.t) :
  exists pieces,
    ContentGeneratorAgent.generate_carousel topics style w a = (Ok pieces, a, w) /\
    length pieces = length topics /\
    (forall (k : nat) (topic : string),
       topics !! k = Some topic ->
       pieces !! k =
       Some (ContentGeneratorAgent._generate_content a topic
               (ContentGeneratorAgent.brand_voice a !! "tone") (Some style))) /\
    forall more : list string,
      exists extra,
        ContentGeneratorAgent.generate_carousel (topics ++ more) style w a
          = (Ok (pieces ++ extra), a, w).
Proof.
  assert (Hrun : forall ts,
            ContentGeneratorAgent.generate_carousel ts style w a =
            (Ok (map (fun topic =>
                        ContentGeneratorAgent._generate_content a topic
                          (ContentGeneratorAgent.brand_voice a !! "tone") (Some style))
                   ts), a, w)).
  { intros ts. unfold ContentGeneratorAgent.generate_carousel, bind, get_self, ret.
    rewrite (foldl_snoc_map
               (fun topic => ContentGeneratorAgent._generate_content a topic
                               (ContentGeneratorAgent.brand_voice a !! "tone")
                               (Some style))).
    reflexivity. }
  eexists. split; [apply Hrun |]. split; [apply length_map |]. split.
  - intros k topic Hk. rewrite list_lookup_fmap, Hk. reflexivity.
  - intros more. eexists. rewrite Hrun, map_app. reflexivity.
Qed.

(** On twitter the text [execute] returns is bounded: at most 280 characters
    without hashtags, and at most 280 plus the blank line and the joined
    hashtags with them; on every platform the [length] field is the length of
    the returned text. *)
Theorem twitter_content_length (i : ContentGeneratorAgent.Input) (w : World)
    (a : ContentGeneratorAgent.t) :
  ContentGeneratorAgent.platform a = "twitter" ->
  exists r a' w',
    ContentGeneratorAgent.execute i w a = (Ok r, a', w') /\
    ContentGeneratorAgent.length r = String.length (ContentGeneratorAgent.content r) /\
    (default [] (ContentGeneratorAgent.hashtags i) = [] ->
     (ContentGeneratorAgent.length r <= 280)%nat) /\
    (ContentGeneratorAgent.length r
     <= 280 + 2 + String.length
                    (String.concat " " (default [] (ContentGeneratorAgent.hashtags i))))%nat.
Proof.
  intros Htw. pose proof (generator_execute_run i w a) as Hrun. cbn zeta in Hrun.
  eexists _, _, _. split; [exact Hrun |].
  cbn [ContentGeneratorAgent.length ContentGeneratorAgent.content].
  split; [reflexivity |].
  set (opt := ContentGeneratorAgent._optimize_for_platform a _).
  assert (Hopt : (String.length opt <= 280)%nat).
  { unfold opt, ContentGeneratorAgent._optimize_for_platform. rewrite Htw.
    change ("twitter" =? "twitter")%string with true. cbv iota.
    rewrite string_take_length. lia. }
  destruct (default [] (ContentGeneratorAgent.hashtags i)) as [| h hs].
  - split; [intros _; exact Hopt | lia].
  - split; [intros H; discriminate H |].
    rewrite !string_length_append. unfold nl. cbn [String.length]. lia.
Qed.

Lemma twitter_content_length_witness :
  exists r a' w',
    ContentGeneratorAgent.execute
      (ContentGeneratorAgent.mkInput (Some long_topic) None None None)
      sample_world sample_generator = (Ok r, a', w') /\
    (ContentGeneratorAgent.length r <= 280)%nat.
Proof.
  destruct (twitter_content_length
              (ContentGeneratorAgent.mkInput (Some long_topic) None None None)
              sample_world sample_generator eq_refl)
    as (r & a' & w' & Hrun & _ & Hshort & _).
  exists r, a', w'. split; [exact Hrun |]. apply Hshort. reflexivity.
Defined.

(** [process] of the content generator records the message as a "user"
    entry, runs [execute] with the message as the topic and nothing else
    (so with the brand's tone and style and no hashtags), records its result
    as an "assistant" entry and returns its text. *)
Theorem content_process_uses_message_as_topic (message : string) (w : World)
    (a : ContentGeneratorAgent.t) :
  exists r a',
    ContentGeneratorAgent.process message w a
      = (Ok (ContentGeneratorAgent.content r), a',
         mkWorld (clock w) (3 + ticks w) (stdout w)) /\
    ContentGeneratorAgent.result_topic r = message /\
    ContentGeneratorAgent.result_tone r
      = ContentGeneratorAgent.brand_voice a !! "tone" /\
    ContentGeneratorAgent.result_style r
      = ContentGeneratorAgent.brand_voice a !! "style" /\
    ContentGeneratorAgent.content r
      = ContentGeneratorAgent._optimize_for_platform a
          (ContentGeneratorAgent._generate_content a message
             (ContentGeneratorAgent.brand_voice a !! "tone")
             (ContentGeneratorAgent.brand_voice a !! "style")) /\
    BaseAgent.memory (ContentGeneratorAgent.base a')
      = BaseAgent.memory (ContentGeneratorAgent.base a) ++
        [ BaseAgent.mkEntry (clock w (ticks w)) "user" (inr message) ∅;
          BaseAgent.mkEntry (clock w (2 + ticks w)) "assistant"
            (inl (ContentGeneratorAgent.json_of_result r)) ∅ ].
Proof.
  eexists _, _. split.
  - unfold ContentGeneratorAgent.process. unfold bind at 1.
    unfold ContentGeneratorAgent.add_to_memory, zoom. rewrite add_to_memory_run.
    unfold bind at 1.
    pose proof (generator_execute_run
                  (ContentGeneratorAgent.mkInput (Some message) None None None)
                  (mkWorld (clock w) (S (ticks w)) (stdout w))
                  (ContentGeneratorAgent.set_base
                     (BaseAgent.set_memory
                        (BaseAgent.memory (ContentGeneratorAgent.base a) ++
                         [BaseAgent.mkEntry (clock w (ticks w)) "user" (inr message)
                            (default ∅ None)])
                        (ContentGeneratorAgent.base a)) a)) as Hrun.
    cbn zeta in Hrun. rewrite Hrun. reflexivity.
  - cbn [ContentGeneratorAgent.result_topic ContentGeneratorAgent.result_tone
         ContentGeneratorAgent.result_style ContentGeneratorAgent.content
         ContentGeneratorAgent.topic ContentGeneratorAgent.tone
         ContentGeneratorAgent.style ContentGeneratorAgent.hashtags
         ContentGeneratorAgent.base ContentGeneratorAgent.set_base
         ContentGeneratorAgent.brand_voice
         BaseAgent.memory BaseAgent.set_memory clock ticks stdout default str_or].
    rewrite <- app_assoc. repeat split.
Qed.

(** ** agents/engagement_tracker.py *)

(** [l[-1:]] after an append is the appended element. *)
Lemma slice_from_newest {A : Type} (l : list A) (x : A) :
  slice_from (- (1)) (l ++ [x]) = [x].
Proof.
  rewrite (slice_from_last 1) by (rewrite length_app; cbn [length]; lia).
  rewrite length_app. cbn [length].
  replace (length l + 1 - Z.to_nat 1)%nat with (length l) by lia.
  now rewrite drop_app_length.
Qed.



















(** [process] of the engagement tracker ignores its message: it records it
    as a "user" entry, runs [execute] on its built-in sample metrics and
    answers "good performance" every time; each call therefore adds 450
    likes, 120 comments, 85 shares and 12500 impressions to the running
    totals and one record to the metrics history. *)
Theorem tracker_process_ignores_message (message : string) (w : World)
    (a : EngagementTrackerAgent.t) :
  exists a',
    EngagementTrackerAgent.process message w a
      = (Ok "Engagement Analysis Complete: good performance", a',
         mkWorld (clock w) (3 + ticks w) (stdout w)) /\
    (forall key amount,
       In (key, amount)
          [("likes", 450); ("comments", 120); ("shares", 85); ("impressions", 12500);
           ("total_interactions", 655)] ->
       (EngagementTrackerAgent.agg_get (EngagementTrackerAgent.aggregated_metrics a') key
        == EngagementTrackerAgent.agg_get (EngagementTrackerAgent.aggregated_metrics a) key
           + inject_Z amount)%Q) /\
    length (EngagementTrackerAgent.metrics_history a')
      = S (length (EngagementTrackerAgent.metrics_history a)) /\
    length (BaseAgent.memory (EngagementTrackerAgent.base a'))
      = S (S (length (BaseAgent.memory (EngagementTrackerAgent.base a)))) /\
    BaseAgent.memory (EngagementTrackerAgent.base a')
      !! length (BaseAgent.memory (EngagementTrackerAgent.base a))
      = Some (BaseAgent.mkEntry (clock w (ticks w)) "user" (inr message) ∅).
Proof.
  unfold EngagementTrackerAgent.process. unfold bind at 1.
  unfold EngagementTrackerAgent.add_to_memory, zoom. rewrite add_to_memory_run.
  cbv zeta. unfold bind at 1. rewrite tracker_execute_run.
  cbn [EngagementTrackerAgent.metrics_data default from_option id].
  match goal with
  | |- context [EngagementTrackerAgent.build_processed ?m] => set (m0 := m)
  end.
  eassert (Hp : EngagementTrackerAgent.build_processed m0 = Ok _)
    by (vm_compute; reflexivity).
  rewrite Hp. cbv zeta.
  match goal with
  | |- context [EngagementTrackerAgent._analyze_performance ?p] => set (p0 := p) in *
  end.
  eassert (Han : EngagementTrackerAgent._analyze_performance p0 = Ok _)
    by (vm_compute; reflexivity).
  rewrite Han.
  eexists. split; [reflexivity |].
  cbn [EngagementTrackerAgent.aggregated_metrics EngagementTrackerAgent.metrics_history
       EngagementTrackerAgent.base EngagementTrackerAgent.set_base
       BaseAgent.memory BaseAgent.set_memory].
  split; [| split; [| split]].
  - intros key amount Hin. rewrite foldl_aggregate_get.
    apply Qplus_inj_l.
    repeat (destruct Hin as [Heq | Hin];
            [injection Heq as <- <-; vm_compute; reflexivity |]).
    contradiction.
  - rewrite length_app. cbn [length]. lia.
  - rewrite !length_app. cbn [length]. lia.
  - rewrite <- app_assoc. rewrite lookup_app_r by lia.
    rewrite Nat.sub_diag. reflexivity.
Qed.

(** ** orchestrator.py *)

Section WorkflowExtras.

Context {T C E : Type}.
Context `{!Agent T TrendMonitorAgent.Input TrendMonitorAgent.Result}.
Context `{!Agent C ContentGeneratorAgent.Input ContentGeneratorAgent.Result}.
Context `{!Agent E EngagementTrackerAgent.Input EngagementTrackerAgent.Result}.

(** What the accessors show after a workflow: after a success
    [get_current_state] counts one execution more and reports the result as
    the last execution, and [get_execution_history(1)] is that result alone;
    after an error the count and the last execution are what they were. *)
Theorem accessors_after_workflow (p : AgentOrchestrator.Input) (w : World)
    (o : AgentOrchestrator.t T C E) :
  exists r o' w',
    AgentOrchestrator.execute_workflow p w o = (Ok r, o', w') /\
    let before := AgentOrchestrator.get_current_state o in
    let after := AgentOrchestrator.get_current_state o' in
    ((AgentOrchestrator.status r = "success" /\
      AgentOrchestrator.execution_count after
        = S (AgentOrchestrator.execution_count before) /\
      AgentOrchestrator.last_execution after = Some r /\
      AgentOrchestrator.get_execution_history (Some 1) o' = [r] /\
      AgentOrchestrator.current_state after = AgentOrchestrator.state o') \/
     (AgentOrchestrator.status r = "error" /\
      AgentOrchestrator.execution_count after = AgentOrchestrator.execution_count before /\
      AgentOrchestrator.last_execution after = AgentOrchestrator.last_execution before /\
      AgentOrchestrator.get_execution_history None o'
        = AgentOrchestrator.get_execution_history None o)).
Proof.
  destruct (execute_workflow_returns p w o)
    as (r & o' & w' & Hrun & [[Hs Hh] | [Hs Hh]]);
    exists r, o', w'; (split; [exact Hrun |]); cbn zeta;
    unfold AgentOrchestrator.get_current_state, AgentOrchestrator.get_execution_history;
    cbn [AgentOrchestrator.execution_count AgentOrchestrator.last_execution
         AgentOrchestrator.current_state Z.eqb];
    rewrite Hh; [left | right].
  - split; [exact Hs |]. rewrite length_app, last_snoc. cbn [length].
    split; [lia |]. split; [reflexivity |]. split; [apply slice_from_newest | reflexivity].
  - repeat split. exact Hs.
Qed.

(** No rollback: when the engagement tracker raises after the trend monitor
    and the content generator have returned, the error result comes with a
    state that already holds the new trends and the new content; only the
    engagement metrics are the old ones, and the history is unchanged. *)
Theorem no_rollback_after_tracker_failure
    (p : AgentOrchestrator.Input) (w : World) (o : AgentOrchestrator.t T C E)
    (tr : TrendMonitorAgent.Result) (t' : T) (w2 : World) (topic : string)
    (cr : ContentGeneratorAgent.Result) (c' : C) (w4 : World)
    (e : PyException) (e' : E) (w' : World) :
  agent_execute (AgentOrchestrator.trend_input p)
    (printed "[Step 1] Monitoring trends..." (ticked w))
    (AgentOrchestrator.trend_monitor (AgentOrchestrator.agents o)) = (Ok tr, t', w2) ->
  AgentOrchestrator.resolve_topic (AgentOrchestrator.topic p)
    (TrendMonitorAgent.trends tr) = Ok topic ->
  agent_execute (AgentOrchestrator.content_input p topic)
    (printed "[Step 2] Generating content..." w2)
    (AgentOrchestrator.content_generator (AgentOrchestrator.agents o)) = (Ok cr, c', w4) ->
  agent_execute (AgentOrchestrator.engagement_input p)
    (printed "[Step 3] Tracking engagement..." w4)
    (AgentOrchestrator.engagement_tracker (AgentOrchestrator.agents o)) = (Raise e, e', w') ->
  exists r o',
    AgentOrchestrator.execute_workflow p w o = (Ok r, o', ticked w') /\
    AgentOrchestrator.status r = "error" /\
    AgentOrchestrator.result_trends r = None /\
    AgentOrchestrator.content r = None /\
    AgentOrchestrator.state o'
      = AgentOrchestrator.mkState (TrendMonitorAgent.trends tr)
          (AgentOrchestrator.generated_content (AgentOrchestrator.state o) ++ [cr])
          (AgentOrchestrator.engagement_metrics (AgentOrchestrator.state o)) /\
    AgentOrchestrator.execution_history o' = AgentOrchestrator.execution_history o.
Proof.
  intros Ht Htopic Hc He. rewrite execute_workflow_run. cbn zeta.
  rewrite Ht, Htopic, Hc, He. eexists _, _. repeat split.
Qed.

(** An empty trend list is an error when no topic is given: if the trend
    monitor returns no trend and the input has no topic (or an empty one),
    taking the first trend raises an [IndexError] that comes back as the
    error "list index out of range"; the content generator and the
    engagement tracker are not called. An explicit non-empty topic avoids
    the lookup. *)
Theorem empty_trend_list_is_an_error
    (p : AgentOrchestrator.Input) (w : World) (o : AgentOrchestrator.t T C E)
    (tr : TrendMonitorAgent.Result) (t' : T) (w2 : World) :
  agent_execute (AgentOrchestrator.trend_input p)
    (printed "[Step 1] Monitoring trends..." (ticked w))
    (AgentOrchestrator.trend_monitor (AgentOrchestrator.agents o)) = (Ok tr, t', w2) ->
  TrendMonitorAgent.trends tr = [] ->
  AgentOrchestrator.topic p = None \/ AgentOrchestrator.topic p = Some "" ->
  exists r o',
    AgentOrchestrator.execute_workflow p w o
      = (Ok r, o', ticked (printed "[Step 2] Generating content..." w2)) /\
    AgentOrchestrator.status r = "error" /\
    AgentOrchestrator.error r = Some "list index out of range" /\
    AgentOrchestrator.agents o'
      = AgentOrchestrator.mkAgents t'
          (AgentOrchestrator.content_generator (AgentOrchestrator.agents o))
          (AgentOrchestrator.engagement_tracker (AgentOrchestrator.agents o)) /\
    AgentOrchestrator.trends (AgentOrchestrator.state o') = [] /\
    AgentOrchestrator.generated_content (AgentOrchestrator.state o')
      = AgentOrchestrator.generated_content (AgentOrchestrator.state o).
Proof.
  intros Ht Hempty Htopic. rewrite execute_workflow_run. cbn zeta. rewrite Ht.
  assert (Hres : AgentOrchestrator.resolve_topic (AgentOrchestrator.topic p)
                   (TrendMonitorAgent.trends tr)
                 = Raise (IndexError "list index out of range")).
  { rewrite Hempty. destruct Htopic as [-> | ->]; reflexivity. }
  rewrite Hres, Hempty. eexists _, _. repeat split.
Qed.

(** The handler of the monitoring loop is dead code: [execute_workflow]
    never raises, so a turn of the loop is the workflow, the "cycle
    complete" line and the sleep, as if the [try] were not there; the line
    "Error in monitoring cycle" is never what the loop prints. *)
Theorem monitoring_handler_never_runs (interval : Z) (w : World)
    (o : AgentOrchestrator.t T C E) :
  exists r o' w',
    AgentOrchestrator.execute_workflow
      (AgentOrchestrator.mkInput (Some "trending topics") None None None None) w o
      = (Ok r, o', w') /\
    AgentOrchestrator.monitoring_cycle interval w o
      = (Ok tt, o',
         printed ("[" +:+ AgentOrchestrator.timestamp r +:+ "] Monitoring cycle complete")
           w').
Proof.
  destruct (execute_workflow_returns
              (AgentOrchestrator.mkInput (Some "trending topics") None None None None) w o)
    as (r & o' & w' & Hrun & _).
  exists r, o', w'. split; [exact Hrun |].
  unfold AgentOrchestrator.monitoring_cycle, bind, try_except, asyncio_sleep.
  rewrite Hrun. reflexivity.
Qed.

End WorkflowExtras.

Lemma no_rollback_after_tracker_failure_witness :
  exists r o' w' cr,
    AgentOrchestrator.execute_workflow broken_params started_world sample_orchestrator
      = (Ok r, o', w') /\
    AgentOrchestrator.status r = "error" /\
    AgentOrchestrator.state o' = AgentOrchestrator.mkState mock_trends [cr] None.
Proof.
  pose proof (trend_execute_run (AgentOrchestrator.trend_input broken_params)
                (printed "[Step 1] Monitoring trends..." (ticked started_world))
                (AgentOrchestrator.trend_monitor
                   (AgentOrchestrator.agents sample_orchestrator))) as Ht.
  cbn zeta in Ht.
  pose proof (generator_execute_run
                (AgentOrchestrator.content_input broken_params "#AIRevolution")
                (printed "[Step 2] Generating content..."
                   (mkWorld (clock started_world) (S (S (S (ticks started_world))))
                      (stdout started_world ++ ["[Step 1] Monitoring trends..."])))
                (AgentOrchestrator.content_generator
                   (AgentOrchestrator.agents sample_orchestrator))) as Hc.
  cbn zeta in Hc.
  destruct (@no_rollback_after_tracker_failure _ _ _
              trend_monitor_agent content_generator_agent engagement_tracker_agent
              broken_params started_world sample_orchestrator
              _ _ _ "#AIRevolution" _ _ _
              (TypeError "unsupported operand type(s) for +: 'NoneType' and 'int'")
              _ _ Ht eq_refl Hc ltac:(vm_compute; reflexivity))
    as (r & o' & Hrun & Hstatus & _ & _ & Hstate & _).
  eexists r, o', _, _. split; [exact Hrun |]. split; [exact Hstatus |]. exact Hstate.
Defined.

Lemma empty_trend_list_is_an_error_witness :
  exists r o' w',
    @AgentOrchestrator.execute_workflow _ _ _
      no_trends_agent content_generator_agent engagement_tracker_agent
      empty_params started_world trendless_orchestrator = (Ok r, o', w') /\
    AgentOrchestrator.error r = Some "list index out of range".
Proof.
  destruct (@empty_trend_list_is_an_error _ _ _
              no_trends_agent content_generator_agent engagement_tracker_agent
              empty_params started_world trendless_orchestrator
              _ _ _ eq_refl eq_refl (or_introl eq_refl))
    as (r & o' & Hrun & _ & Herr & _).
  eexists r, o', _. split; [exact Hrun | exact Herr].
Defined.

(** The orchestrator the constructor builds: its three agents are the
    repository's. *)

Lemma resolve_topic_mock (explicit : option string) :
  exists topic, AgentOrchestrator.resolve_topic explicit mock_trends = Ok topic.
Proof.
  unfold AgentOrchestrator.resolve_topic.
  destruct explicit as [s |]; [destruct (String.eqb s "") |]; eexists; reflexivity.
Qed.

Ltac run_repository_agents p w o :=
  rewrite (@execute_workflow_run _ _ _
             trend_monitor_agent content_generator_agent engagement_tracker_agent p w o);
  cbn zeta;
  change (@agent_execute _ _ _ trend_monitor_agent) with TrendMonitorAgent.execute;
  change (@agent_execute _ _ _ content_generator_agent) with ContentGeneratorAgent.execute;
  change (@agent_execute _ _ _ engagement_tracker_agent)
    with EngagementTrackerAgent.execute;
  rewrite trend_execute_run; cbn zeta; cbn [TrendMonitorAgent.trends];
  let topic := fresh "topic" in
  let Htopic := fresh "Htopic" in
  destruct (resolve_topic_mock (AgentOrchestrator.topic p)) as [topic Htopic];
  rewrite Htopic;
  let Hgen := fresh "Hgen" in
  match goal with
  | |- context [ContentGeneratorAgent.execute ?i ?w' ?a] =>
      pose proof (generator_execute_run i w' a) as Hgen;
      cbn zeta in Hgen; rewrite Hgen; clear Hgen
  end;
  rewrite tracker_execute_run.

Lemma repository_workflow_success
    (p : AgentOrchestrator.Input) (w : World)
    (o : AgentOrchestrator.t TrendMonitorAgent.t ContentGeneratorAgent.t
           EngagementTrackerAgent.t) (l c s i : Z) :
  int_field (default ∅ (AgentOrchestrator.metrics p)) "likes" 0 = Some l ->
  int_field (default ∅ (AgentOrchestrator.metrics p)) "comments" 0 = Some c ->
  int_field (default ∅ (AgentOrchestrator.metrics p)) "shares" 0 = Some s ->
  int_field (default ∅ (AgentOrchestrator.metrics p)) "impressions" 1 = Some i ->
  exists r o' w' cr,
    AgentOrchestrator.execute_workflow p w o = (Ok r, o', w') /\
    AgentOrchestrator.status r = "success" /\
    AgentOrchestrator.error r = None /\
    AgentOrchestrator.result_trends r = Some mock_trends /\
    AgentOrchestrator.content r = Some (ContentGeneratorAgent.content cr) /\
    AgentOrchestrator.workflow_id r = clock w (ticks w) /\
    AgentOrchestrator.execution_history o' = AgentOrchestrator.execution_history o ++ [r] /\
    AgentOrchestrator.generated_content (AgentOrchestrator.state o')
      = AgentOrchestrator.generated_content (AgentOrchestrator.state o) ++ [cr] /\
    AgentOrchestrator.trends (AgentOrchestrator.state o') = mock_trends /\
    ticks w' = (8 + ticks w)%nat.
Proof.
  intros Hl Hc Hs Hi.
  run_repository_agents p w o.
  change (default ∅ (EngagementTrackerAgent.metrics_data
                       (AgentOrchestrator.engagement_input p)))
    with (default ∅ (AgentOrchestrator.metrics p)).
  rewrite (build_processed_int _ l c s i Hl Hc Hs Hi). cbv beta iota zeta.
  destruct (analyze_performance_int l c s (VNum (Int i))
              (py_round (if 0 <? i then Float (inject_Z (l + c + s) / inject_Z i)
                         else Int 0) 4)
              (py_round (num_mul (if 0 <? i then Float (inject_Z (l + c + s) / inject_Z i)
                                  else Int 0) (Int 100)) 2)) as [an ->].
  eexists _, _, _, _. split; [reflexivity |]. repeat split.
Qed.



(** What a workflow leaves in the memories of the repository's agents, for
    any input: one more entry in the trend monitor and one more in the
    content generator, always; one more in the engagement tracker when the
    result is a success and none when it is an error. *)
Theorem workflow_memory_growth
    (p : AgentOrchestrator.Input) (w : World)
    (o : AgentOrchestrator.t TrendMonitorAgent.t ContentGeneratorAgent.t
           EngagementTrackerAgent.t) :
  exists r o' w',
    AgentOrchestrator.execute_workflow p w o = (Ok r, o', w') /\
    let size_of (a : BaseAgent.t) := length (BaseAgent.memory a) in
    let agents_before := AgentOrchestrator.agents o in
    let agents_after := AgentOrchestrator.agents o' in
    size_of (TrendMonitorAgent.base (AgentOrchestrator.trend_monitor agents_after))
      = S (size_of (TrendMonitorAgent.base (AgentOrchestrator.trend_monitor agents_before)))
    /\
    size_of (ContentGeneratorAgent.base (AgentOrchestrator.content_generator agents_after))
      = S (size_of (ContentGeneratorAgent.base
                      (AgentOrchestrator.content_generator agents_before))) /\
    ((AgentOrchestrator.status r = "success" /\
      size_of (EngagementTrackerAgent.base (AgentOrchestrator.engagement_tracker agents_after))
        = S (size_of (EngagementTrackerAgent.base
                        (AgentOrchestrator.engagement_tracker agents_before)))) \/
     (AgentOrchestrator.status r = "error" /\
      EngagementTrackerAgent.base (AgentOrchestrator.engagement_tracker agents_after)
        = EngagementTrackerAgent.base (AgentOrchestrator.engagement_tracker agents_before))).
Proof.
  run_repository_agents p w o.
  destruct (EngagementTrackerAgent.build_processed _) as [pm | e].
  - cbn zeta. destruct (EngagementTrackerAgent._analyze_performance pm) as [an | e];
      eexists _, _, _; (split; [reflexivity |]); cbn zeta;
      cbn [AgentOrchestrator.agents AgentOrchestrator.trend_monitor
           AgentOrchestrator.content_generator AgentOrchestrator.engagement_tracker
           AgentOrchestrator.set_engagement_tracker AgentOrchestrator.set_content_generator
           AgentOrchestrator.set_trend_monitor AgentOrchestrator.set_state
           AgentOrchestrator.set_agents
           TrendMonitorAgent.base TrendMonitorAgent.set_base
           TrendMonitorAgent.set_trends_cache
           ContentGeneratorAgent.base ContentGeneratorAgent.set_base
           EngagementTrackerAgent.base EngagementTrackerAgent.set_aggregated_metrics
           BaseAgent.memory BaseAgent.set_memory];
      rewrite ?length_app; cbn [length];
      (split; [lia |]); (split; [lia |]); [left | right]; split;
      try reflexivity; lia.
  - eexists _, _, _. split; [reflexivity |]. cbn zeta.
    cbn [AgentOrchestrator.agents AgentOrchestrator.trend_monitor
         AgentOrchestrator.content_generator AgentOrchestrator.engagement_tracker
         AgentOrchestrator.set_engagement_tracker AgentOrchestrator.set_content_generator
         AgentOrchestrator.set_trend_monitor AgentOrchestrator.set_state
         AgentOrchestrator.set_agents
         TrendMonitorAgent.base TrendMonitorAgent.set_base
         TrendMonitorAgent.set_trends_cache
         ContentGeneratorAgent.base ContentGeneratorAgent.set_base
         BaseAgent.memory BaseAgent.set_memory].
    rewrite ?length_app; cbn [length].
    split; [lia |]. split; [lia |]. right. split; reflexivity.
Qed.

Lemma monitoring_cycle_repository (interval : Z) (w : World)
    (o : AgentOrchestrator.t TrendMonitorAgent.t ContentGeneratorAgent.t
           EngagementTrackerAgent.t) :
  exists r o' w' cr,
    AgentOrchestrator.monitoring_cycle interval w o = (Ok tt, o', w') /\
    AgentOrchestrator.status r = "success" /\
    AgentOrchestrator.execution_history o' = AgentOrchestrator.execution_history o ++ [r] /\
    AgentOrchestrator.generated_content (AgentOrchestrator.state o')
      = AgentOrchestrator.generated_content (AgentOrchestrator.state o) ++ [cr] /\
    ticks w' = (8 + ticks w)%nat.
Proof.
  destruct (repository_workflow_success
              (AgentOrchestrator.mkInput (Some "trending topics") None None None None)
              w o 0 0 0 1 eq_refl eq_refl eq_refl eq_refl)
    as (r & o' & w' & cr & Hrun & Hst & _ & _ & _ & _ & Hh & Hg & _ & Hticks).
  exists r, o',
    (printed ("[" +:+ AgentOrchestrator.timestamp r +:+ "] Monitoring cycle complete") w'),
    cr.
  split.
  - unfold AgentOrchestrator.monitoring_cycle, bind, try_except, asyncio_sleep, print.
    rewrite Hrun. reflexivity.
  - repeat split; assumption.
Qed.

(** The monitoring loop grows the orchestrator without bound: with the
    repository's agents every turn of the loop is a successful workflow, so
    after its first [n] turns the execution history holds [n] more results,
    all with status "success", the state holds [n] more generated contents,
    and the clock has been read [8 * n] times. *)
Theorem monitoring_grows_by_one_per_cycle (interval : Z) (n : nat) (w : World)
    (o : AgentOrchestrator.t TrendMonitorAgent.t ContentGeneratorAgent.t
           EngagementTrackerAgent.t) :
  exists o' w' results contents,
    AgentOrchestrator.continuous_monitoring interval n w o = (Ok tt, o', w') /\
    AgentOrchestrator.execution_history o'
      = AgentOrchestrator.execution_history o ++ results /\
    length results = n /\
    Forall (fun r => AgentOrchestrator.status r = "success") results /\
    AgentOrchestrator.generated_content (AgentOrchestrator.state o')
      = AgentOrchestrator.generated_content (AgentOrchestrator.state o) ++ contents /\
    length contents = n /\
    ticks w' = (8 * n + ticks w)%nat.
Proof.
  assert (Hloop : forall (k : nat) (w0 : World)
                         (o0 : AgentOrchestrator.t TrendMonitorAgent.t
                                 ContentGeneratorAgent.t EngagementTrackerAgent.t),
            exists o' w' results contents,
              AgentOrchestrator.monitoring_cycles interval k w0 o0 = (Ok tt, o', w') /\
              AgentOrchestrator.execution_history o'
                = AgentOrchestrator.execution_history o0 ++ results /\
              length results = k /\
              Forall (fun r => AgentOrchestrator.status r = "success") results /\
              AgentOrchestrator.generated_content (AgentOrchestrator.state o')
                = AgentOrchestrator.generated_content (AgentOrchestrator.state o0)
                  ++ contents /\
              length contents = k /\
              ticks w' = (8 * k + ticks w0)%nat).
  { induction k as [| k IH]; intros w0 o0.
    - exists o0, w0, [], []. cbn [AgentOrchestrator.monitoring_cycles ret length].
      rewrite !app_nil_r. repeat split. constructor.
    - destruct (monitoring_cycle_repository interval w0 o0)
        as (r & o1 & w1 & cr & Hcycle & Hst & Hh & Hg & Ht).
      destruct (IH w1 o1)
        as (o' & w' & results & contents & Hrest & Hh' & Hlen & Hall & Hg' & Hlen' & Ht').
      exists o', w', (r :: results), (cr :: contents). split.
      + cbn [AgentOrchestrator.monitoring_cycles]. unfold bind at 1.
        rewrite Hcycle. exact Hrest.
      + rewrite Hh', Hh, Hg', Hg, <- !app_assoc. cbn [app length].
        repeat split; try (f_equal; assumption); try lia.
        constructor; assumption. }
  destruct (Hloop n (printed ("Starting continuous monitoring (interval: "
                              +:+ pretty interval +:+ "s)") w) o)
    as (o' & w' & results & contents & Hrun & Hrest).
  exists o', w', results, contents. split; [| exact Hrest].
  unfold AgentOrchestrator.continuous_monitoring, bind at 1, print.
  exact Hrun.
Qed.


